(** * Leverage-zap routing calculators (scripts/periphery/flashloan_zap.py)

    A shallow embedding of the routing-data calculators of the leverage zap
    and the properties of their specification.

    - [PyNum]: the Python numbers the calculators compute with: unbounded
      integers ([Z]), binary64 floats ([spec_float] of the standard library),
      true division of integers ([/]) and [int()] of a float.
    - [Zap]: the calculators, in a small monad that threads the trace of
      the calls made to the chain and to the quote provider, and that can
      raise a Python exception. *)

From Stdlib Require Import ZArith List Lia Bool String.
From Stdlib Require Import Floats.SpecFloat.
Import ListNotations.
Open Scope Z_scope.

(** ** Python numbers *)
Module PyNum.

(** The exceptions the calculators can raise. [External] stands for any
    failure reported by a contract call or by the quote provider. *)
Inductive exn :=
| AssertionError
| ZeroDivisionError
| OverflowError
| ValueError
| IndexError
| External (msg : string).

(** A Python [float] is an IEEE-754 binary64 number. *)
Definition pyfloat := spec_float.
Definition prec : Z := 53.
Definition emax : Z := 1024.

(** [rne p q] is the integer nearest to [p / q] (for [0 <= p], [0 < q]),
    ties going to the even one. *)
Definition rne (p q : Z) : Z :=
  let k := p / q in
  let r := p mod q in
  if 2 * r <? q then k
  else if q <? 2 * r then k + 1
  else if Z.even k then k else k + 1.

(** Numerator and denominator of [(n / d) / 2 ^ e], for an exponent [e] of
    either sign. *)
Definition num (e n : Z) : Z := n * 2 ^ Z.max 0 (- e).
Definition den (e d : Z) : Z := d * 2 ^ Z.max 0 e.

(** [ilog2_quot n d] is the floor of the binary logarithm of [n / d], for
    positive [n] and [d]. *)
Definition ilog2_quot (n d : Z) : Z :=
  let g := Z.log2 n - Z.log2 d in
  if den g d <=? num g n then g else g - 1.

(** The quotient [n / d] of two positive integers rounded to the nearest
    binary64 number, as mantissa and exponent [(m, e)] of value [m * 2 ^ e]:
    53 significant bits, exponent not below that of the subnormals. *)
Definition round_quot (n d : Z) : Z * Z :=
  let e := Z.max (ilog2_quot n d - 52) (- 1074) in
  (rne (num e n) (den e d), e).

(** The mantissa [2 ^ 53], reached when rounding carries into the next
    binade, is written with 53 bits again. *)
Definition normalize (me : Z * Z) : Z * Z :=
  let (m, e) := me in
  if m =? 2 ^ 53 then (2 ^ 52, e + 1) else (m, e).

(** [a / b] on Python integers: the exact quotient, correctly rounded to
    binary64 (ties to even); [ZeroDivisionError] for a zero divisor and
    [OverflowError] when the rounded quotient is no binary64 number. *)
Definition py_truediv (a b : Z) : exn + pyfloat :=
  if b =? 0 then inl ZeroDivisionError
  else
    let s := xorb (a <? 0) (b <? 0) in
    if a =? 0 then inr (S754_zero s)
    else
      let (m, e) := normalize (round_quot (Z.abs a) (Z.abs b)) in
      if emax - prec <? e then inl OverflowError
      else if m =? 0 then inr (S754_zero s)
      else inr (S754_finite s (Z.to_pos m) e).

(** The integer part of the dyadic number [m * 2 ^ e], for [0 <= m]. *)
Definition trunc_dyadic (m e : Z) : Z :=
  if 0 <=? e then m * 2 ^ e else m / 2 ^ (- e).

(** [int(x)] of a float: truncation toward zero. *)
Definition py_int (x : pyfloat) : exn + Z :=
  match x with
  | S754_zero _ => inr 0
  | S754_infinity _ => inl OverflowError
  | S754_nan => inl ValueError
  | S754_finite s m e =>
      let v := trunc_dyadic (Zpos m) e in
      inr (if s then - v else v)
  end.

(** [float(n)] of an integer. *)
Definition py_float_of_int (n : Z) : exn + pyfloat := py_truediv n 1.

(** [x * y] and [x + y] on floats. *)
Definition py_float_mul (x y : pyfloat) : pyfloat := SFmul prec emax x y.
Definition py_float_add (x y : pyfloat) : pyfloat := SFadd prec emax x y.

(** The least integer not below the dyadic number [m * 2 ^ e]. *)
Definition ceil_dyadic (m e : Z) : Z :=
  if 0 <=? e then m * 2 ^ e else - ((- m) / 2 ^ (- e)).


End PyNum.

(** ** The calculators *)
Module Zap.
Import PyNum.

(** Addresses, route identifiers and routing data are Python strings. A
    [Contract(address)] handle is identified with its address. *)
Definition address := string.

Definition CONTROLLER : address := "0x1337F001E280420EcCe9E7B934Fa07D67fdb62CD"%string.
Definition MONEY : address := "0x69420f9e38a4e60a62224c489be4bf7a94402496"%string.

(** [ZERO_ADDRESS] of brownie. *)
Definition ZERO_ADDRESS : address :=
  "0x0000000000000000000000000000000000000000"%string.

(** *** Calls to the outside world

    Every contract read and every request to the quote provider is an
    event, recorded with its arguments and with what it returned (or
    raised). *)
Inductive event :=
| E_get_collateral (market : address) (r : exn + address)
| E_market_contracts (market : address) (r : exn + list address)
| E_get_close_loan_amounts (account market : address) (r : exn + Z * Z)
| E_get_oracle_price (token : address) (r : exn + Z)
| E_balanceOf (token account : address) (r : exn + Z)
| E_decimals (token : address) (r : exn + Z)
| E_user_state (market account : address) (r : exn + list Z)
| E_pending_account_state_calculator
    (market account : address) (coll debt n_bands : Z) (r : exn + Z)
| E_get_sum_xy (amm account : address) (r : exn + Z * Z)
| E_get_quote (chain : Z) (sender token_in token_out : address)
    (amount_in : Z) (max_slippage : pyfloat) (r : exn + Z * string)
| E_get_route_calldata (sender : address) (path_id : string)
    (r : exn + string).

Definition trace := list event.

(** The outside world. Each answer may depend on everything that happened
    before (the trace so far): the chain state moves between two reads and
    the quote provider answers every request afresh. *)
Record Env := {
  chain_id : Z;
  controller_get_collateral : trace -> address -> exn + address;
  controller_market_contracts : trace -> address -> exn + list address;
  controller_get_close_loan_amounts :
    trace -> address -> address -> exn + Z * Z;
  controller_get_oracle_price : trace -> address -> exn + Z;
  token_balanceOf : trace -> address -> address -> exn + Z;
  token_decimals : trace -> address -> exn + Z;
  market_user_state : trace -> address -> address -> exn + list Z;
  market_pending_account_state_calculator :
    trace -> address -> address -> Z -> Z -> Z -> exn + Z;
  amm_get_sum_xy : trace -> address -> address -> exn + Z * Z;
  odos_get_quote :
    trace -> Z -> address -> address -> address -> Z -> pyfloat ->
    exn + Z * string;
  odos_get_route_calldata : trace -> address -> string -> exn + string
}.

(** *** The monad: a trace, an exception, or no more fuel *)
Inductive outcome (A : Type) :=
| Ret (a : A)
| Raise (e : exn)
| OutOfFuel.
Arguments Ret {A} a.
Arguments Raise {A} e.
Arguments OutOfFuel {A}.

Definition M (A : Type) : Type := trace -> outcome A * trace.

Definition ret {A} (a : A) : M A := fun tr => (Ret a, tr).

Definition bind {A B} (m : M A) (f : A -> M B) : M B :=
  fun tr =>
    match m tr with
    | (Ret a, tr') => f a tr'
    | (Raise e, tr') => (Raise e, tr')
    | (OutOfFuel, tr') => (OutOfFuel, tr')
    end.

Definition raise {A} (e : exn) : M A := fun tr => (Raise e, tr).

Definition out_of_fuel {A} : M A := fun tr => (OutOfFuel, tr).

Definition of_result {A} (r : exn + A) : outcome A :=
  match r with
  | inl e => Raise e
  | inr a => Ret a
  end.

(** A pure computation that may raise. *)
Definition lift {A} (r : exn + A) : M A := fun tr => (of_result r, tr).

(** A call to the outside: ask, record the answer, return or raise it. *)
Definition call {A} (h : trace -> exn + A) (ev : exn + A -> event) : M A :=
  fun tr => let r := h tr in (of_result r, tr ++ [ev r]).

(** The [assert] statement. *)
Definition py_assert (b : bool) : M unit :=
  if b then ret tt else raise AssertionError.

Declare Scope zap_scope.
Delimit Scope zap_scope with zap.
Notation "x <- m ;; k" := (bind m (fun x => k))
  (at level 61, m at next level, right associativity) : zap_scope.
Notation "' pat <- m ;; k" := (bind m (fun x => match x with pat => k end))
  (at level 61, pat pattern, m at next level, right associativity) : zap_scope.
Notation "m ;;; k" := (bind m (fun _ => k))
  (at level 61, right associativity) : zap_scope.
Open Scope zap_scope.

(** The quote requests recorded in a trace, as the input amounts asked. *)
Fixpoint quoted_amounts (tr : trace) : list Z :=
  match tr with
  | [] => []
  | E_get_quote _ _ _ _ amount_in _ _ :: tr' => amount_in :: quoted_amounts tr'
  | _ :: tr' => quoted_amounts tr'
  end.

(** The route-calldata requests recorded in a trace. *)
Fixpoint calldata_requests (tr : trace) : list string :=
  match tr with
  | [] => []
  | E_get_route_calldata _ path_id _ :: tr' => path_id :: calldata_requests tr'
  | _ :: tr' => calldata_requests tr'
  end.

(** [int(amount_in * debt_shortfall / amount_out)] (line 165): the exact
    integer product, a true division giving a float, and its truncation. *)
Definition rescale (amount_in debt_shortfall amount_out : Z) : exn + Z :=
  match py_truediv (amount_in * debt_shortfall) amount_out with
  | inl e => inl e
  | inr x => py_int x
  end.

Section Calculators.

(** [scripts.utils.float2int.to_int] is imported by the script and is not
    part of it: the calculators are parametric in it. *)
Variable to_int : pyfloat -> Z -> exn + Z.

Variable env : Env.

(** [get_create_loan_routing_data] *)
Definition get_create_loan_routing_data
    (zap market : address) (coll_amount debt_amount num_bands : Z)
    (max_slippage : pyfloat) : M (string * Z * Z) :=
  collateral <- call (fun tr => controller_get_collateral env tr market)
                     (E_get_collateral market) ;;
  '(coll_in, path_id) <-
     call (fun tr => odos_get_quote env tr (chain_id env) zap MONEY collateral
                       debt_amount max_slippage)
          (E_get_quote (chain_id env) zap MONEY collateral debt_amount
             max_slippage) ;;
  let total_coll := coll_amount + coll_in in
  health <-
     call (fun tr => market_pending_account_state_calculator env tr market
                       ZERO_ADDRESS total_coll debt_amount num_bands)
          (E_pending_account_state_calculator market ZERO_ADDRESS total_coll
             debt_amount num_bands) ;;
  data <- call (fun tr => odos_get_route_calldata env tr zap path_id)
               (E_get_route_calldata zap path_id) ;;
  ret (data, total_coll, health).

(** [get_increase_loan_routing_data] *)
Definition get_increase_loan_routing_data
    (zap account market : address) (coll_amount debt_amount : Z)
    (max_slippage : pyfloat) : M (string * Z * Z) :=
  collateral <- call (fun tr => controller_get_collateral env tr market)
                     (E_get_collateral market) ;;
  '(coll_in, path_id) <-
     call (fun tr => odos_get_quote env tr (chain_id env) zap MONEY collateral
                       debt_amount max_slippage)
          (E_get_quote (chain_id env) zap MONEY collateral debt_amount
             max_slippage) ;;
  user_state <- call (fun tr => market_user_state env tr market account)
                     (E_user_state market account) ;;
  coll_existing <- match user_state with
                   | x :: _ => ret x
                   | [] => raise IndexError
                   end ;;
  let total_coll := coll_existing + coll_amount + coll_in in
  health <-
     call (fun tr => market_pending_account_state_calculator env tr market
                       account (coll_amount + coll_in) debt_amount 0)
          (E_pending_account_state_calculator market account
             (coll_amount + coll_in) debt_amount 0) ;;
  data <- call (fun tr => odos_get_route_calldata env tr zap path_id)
               (E_get_route_calldata zap path_id) ;;
  ret (data, total_coll, health).

(** [get_decrease_loan_routing_data] *)
Definition get_decrease_loan_routing_data
    (zap account market : address) (coll_amount : Z)
    (max_slippage : pyfloat) : M (string * Z * Z) :=
  collateral <- call (fun tr => controller_get_collateral env tr market)
                     (E_get_collateral market) ;;
  '(debt_in, path_id) <-
     call (fun tr => odos_get_quote env tr (chain_id env) zap collateral MONEY
                       coll_amount max_slippage)
          (E_get_quote (chain_id env) zap collateral MONEY coll_amount
             max_slippage) ;;
  health <-
     call (fun tr => market_pending_account_state_calculator env tr market
                       account (- coll_amount) (- debt_in) 0)
          (E_pending_account_state_calculator market account
             (- coll_amount) (- debt_in) 0) ;;
  data <- call (fun tr => odos_get_route_calldata env tr zap path_id)
               (E_get_route_calldata zap path_id) ;;
  ret (data, debt_in, health).

(** The [while] loop of [get_close_loan_routing_data] (lines 164-168), on
    its three variables. The condition is tested first; one unit of fuel
    pays for one run of the body. *)
Fixpoint close_loop (zap collateral : address) (max_slippage : pyfloat)
    (debt_shortfall : Z) (fuel : nat) (amount_in amount_out : Z)
    (path_id : string) : M (Z * Z * string) :=
  if amount_out <? debt_shortfall then
    match fuel with
    | O => out_of_fuel
    | S fuel' =>
        amount_in' <- lift (rescale amount_in debt_shortfall amount_out) ;;
        '(amount_out', path_id') <-
           call (fun tr => odos_get_quote env tr (chain_id env) zap collateral
                             MONEY amount_in' max_slippage)
                (E_get_quote (chain_id env) zap collateral MONEY amount_in'
                   max_slippage) ;;
        close_loop zap collateral max_slippage debt_shortfall fuel'
          amount_in' amount_out' path_id'
    end
  else ret (amount_in, amount_out, path_id).

(** [get_close_loan_routing_data] *)
Definition get_close_loan_routing_data
    (zap account market : address) (use_account_balance : bool)
    (max_slippage : pyfloat) (fuel : nat) : M (string * Z * Z) :=
  collateral <- call (fun tr => controller_get_collateral env tr market)
                     (E_get_collateral market) ;;
  amount <- (if use_account_balance
             then call (fun tr => token_balanceOf env tr MONEY account)
                       (E_balanceOf MONEY account)
             else ret 0) ;;
  '(debt_amm, coll_amm) <-
     call (fun tr => controller_get_close_loan_amounts env tr account market)
          (E_get_close_loan_amounts account market) ;;
  let debt_shortfall := - (amount + debt_amm) in
  py_assert (debt_amm <? 0) ;;;
  py_assert (0 <? coll_amm) ;;;
  py_assert (0 <? debt_shortfall) ;;;
  price <- call (fun tr => controller_get_oracle_price env tr collateral)
                (E_get_oracle_price collateral) ;;
  quotient <- lift (py_truediv debt_shortfall price) ;;
  one <- lift (py_float_of_int 1) ;;
  let amount_in := py_float_mul quotient (py_float_add one max_slippage) in
  decimals <- call (fun tr => token_decimals env tr collateral)
                   (E_decimals collateral) ;;
  amount_in <- lift (to_int amount_in decimals) ;;
  '(amount_out, path_id) <-
     call (fun tr => odos_get_quote env tr (chain_id env) zap collateral MONEY
                       amount_in max_slippage)
          (E_get_quote (chain_id env) zap collateral MONEY amount_in
             max_slippage) ;;
  '(amount_in, amount_out, path_id) <-
     close_loop zap collateral max_slippage debt_shortfall fuel
       amount_in amount_out path_id ;;
  data <- call (fun tr => odos_get_route_calldata env tr zap path_id)
               (E_get_route_calldata zap path_id) ;;
  ret (data, amount_in, amount_out).

(** [get_coll_converted_close_and_create_routing_data] *)
Definition get_coll_converted_close_and_create_routing_data
    (zap account market : address) (coll_amount : Z)
    (max_slippage : pyfloat) : M (string * Z) :=
  contracts <- call (fun tr => controller_market_contracts env tr market)
                    (E_market_contracts market) ;;
  '(collateral, amm) <- match removelast contracts with
                        | [c; a] => ret (c, a)
                        | _ => raise ValueError
                        end ;;
  '(debt_amm, coll_amm) <-
     call (fun tr => amm_get_sum_xy env tr amm account)
          (E_get_sum_xy amm account) ;;
  py_assert (0 <? debt_amm) ;;;
  '(received, path_id) <-
     call (fun tr => odos_get_quote env tr (chain_id env) zap MONEY collateral
                       debt_amm max_slippage)
          (E_get_quote (chain_id env) zap MONEY collateral debt_amm
             max_slippage) ;;
  data <- call (fun tr => odos_get_route_calldata env tr zap path_id)
               (E_get_route_calldata zap path_id) ;;
  ret (data, coll_amount + coll_amm + received).

End Calculators.

(** *** Reading traces *)

(** The first quote request of a trace: the amount asked and the answer. *)
Fixpoint first_quote (tr : trace) : option (Z * (exn + Z * string)) :=
  match tr with
  | [] => None
  | E_get_quote _ _ _ _ amount_in _ r :: _ => Some (amount_in, r)
  | _ :: tr' => first_quote tr'
  end.

(** The reads that open a run of [get_close_loan_routing_data], all
    answered: the collateral token, the account's balance when it is used,
    and the close-loan amounts. *)
Definition close_reads (account market : address) (use_account_balance : bool)
    (collateral : address) (balance debt_amm coll_amm : Z) : trace :=
  E_get_collateral market (inr collateral)
  :: (if use_account_balance
      then [E_balanceOf MONEY account (inr balance)] else [])
  ++ [E_get_close_loan_amounts account market (inr (debt_amm, coll_amm))].

(** [debt_shortfall] (line 149) from what was read. *)
Definition shortfall (use_account_balance : bool) (balance debt_amm : Z) : Z :=
  - ((if use_account_balance then balance else 0) + debt_amm).

(** The amounts answered by the quotes of a trace, one after the other. *)
Fixpoint quote_answers (tr : trace) : list Z :=
  match tr with
  | [] => []
  | E_get_quote _ _ _ _ _ _ (inr (amount_out, _)) :: tr' =>
      amount_out :: quote_answers tr'
  | _ :: tr' => quote_answers tr'
  end.

(** The event is a quote request of [sender] on [chain] that sells
    [token_in] for [token_out] under the slippage [max_slippage]. *)
Definition is_quote_of (chain : Z) (sender token_in token_out : address)
    (max_slippage : pyfloat) (ev : event) : Prop :=
  exists amount_in r,
    ev = E_get_quote chain sender token_in token_out amount_in max_slippage r.

(** What the first failed quote request of a trace raised. *)
Fixpoint quote_failure (tr : trace) : option exn :=
  match tr with
  | [] => None
  | E_get_quote _ _ _ _ _ _ (inl e) :: _ => Some e
  | _ :: tr' => quote_failure tr'
  end.


(** The rounded-to-nearest variant of the rescale step that the
    specification sets against the truncating one: the integer nearest to
    [n / d], halves going up. *)
Definition nearest_div (n d : Z) : Z := (2 * n + d) / (2 * d).

(** Modelled from the spec: [to_int] of scripts/utils/float2int.py is not
    part of the script. The specification calls it
    [ceil_to_token_precision], the value "rounded up into the collateral
    token's fixed-point precision", and its scenario gives the seed as
    [ceil(1_000_000 / 2000 * 1.003)] "in collateral-token precision": the
    next integer not below the value, read as an amount in the smallest unit
    of the token, whatever the number of decimals. *)
Definition ceil_to_token_precision (x : pyfloat) (decimals : Z) : exn + Z :=
  match x with
  | S754_zero _ => inr 0
  | S754_infinity _ => inl OverflowError
  | S754_nan => inl ValueError
  | S754_finite s m e => inr (ceil_dyadic (if s then Zneg m else Zpos m) e)
  end.

(** *** A world for the scenarios

    A chain snapshot and a quote provider that answer the same whatever
    happened before: the AMM holds [debt_amm] for the account, the oracle
    price is 2000, the loan has 5000 of collateral, and the provider quotes
    [quote amount] for every request. *)
Definition scenario_env (debt_amm : Z) (quote : Z -> Z) : Env := {|
  chain_id := 1;
  controller_get_collateral := fun _ _ => inr "collateral"%string;
  controller_market_contracts :=
    fun _ _ => inr ["collateral"; "amm"; "oracle"]%string;
  controller_get_close_loan_amounts := fun _ _ _ => inr (debt_amm, 1000);
  controller_get_oracle_price := fun _ _ => inr 2000;
  token_balanceOf := fun _ _ _ => inr 0;
  token_decimals := fun _ _ => inr 18;
  market_user_state := fun _ _ _ => inr [5000; 0; 20000; 10];
  market_pending_account_state_calculator :=
    fun _ _ _ coll debt _ => inr (coll - debt);
  amm_get_sum_xy := fun _ _ _ => inr (debt_amm, 300);
  odos_get_quote := fun _ _ _ _ _ amount _ => inr (quote amount, "route"%string);
  odos_get_route_calldata := fun _ _ _ => inr "0xc0de"%string
|}.

(** The default [max_slippage], the float written [0.003]. *)
Definition default_max_slippage : pyfloat :=
  S754_finite false 6917529027641082 (- 61).

(** A flat price of 1990 per unit, and a price that improves from 1900 to
    2000 per unit at 520 units. *)
Definition flat_quote (amount : Z) : Z := 1990 * amount.
Definition stepped_quote (amount : Z) : Z :=
  if amount <? 520 then 1900 * amount else 2000 * amount.

(** The close-loan calculator in that world: the AMM is owed 1_000_000, the
    account's balance is not used, the slippage is the default one, and
    [to_int] is the rounding up of the specification. *)
Definition scenario_close (quote : Z -> Z) (fuel : nat)
  : outcome (string * Z * Z) * trace :=
  get_close_loan_routing_data ceil_to_token_precision
    (scenario_env (- 1000000) quote) "zap"%string "account"%string "market"%string false
    default_max_slippage fuel [].

End Zap.

(** ** Facts on the rounding of quotients *)
Module PyNumFacts.
Import PyNum Zap.

(** On the quotients used below, [py_truediv] is the division of the
    standard library's IEEE-754 specification, applied to the two integers
    as exact mantissas. *)
Lemma py_truediv_is_SFdiv :
  let sfdiv a b :=
    @inr exn pyfloat
      (SFdiv prec emax (S754_finite false a 0) (S754_finite false b 0)) in
  py_truediv 3 1000 = sfdiv 3%positive 1000%positive /\
  py_truediv 1000000 2000 = sfdiv 1000000%positive 2000%positive /\
  py_truediv (502 * 1000000) 998980
    = sfdiv (502 * 1000000)%positive 998980%positive /\
  py_truediv (2 ^ 61 - 1) (2 ^ 60)
    = sfdiv (2 ^ 61 - 1)%positive (2 ^ 60)%positive /\
  py_truediv ((2 ^ 54 + 1) * 10 ^ 18) (10 ^ 18 - 1)
    = sfdiv ((2 ^ 54 + 1) * 10 ^ 18)%positive (10 ^ 18 - 1)%positive.
Proof. vm_compute. repeat split; reflexivity. Qed.

Lemma rne_lower p q K : 0 < q -> K * q <= p -> K <= rne p q.
Proof.
  intros Hq Hp. unfold rne.
  assert (Hk : K <= p / q) by (apply Z.div_le_lower_bound; lia).
  destruct (2 * (p mod q) <? q); [lia|].
  destruct (q <? 2 * (p mod q)); [lia|].
  destruct (Z.even (p / q)); lia.
Qed.

Lemma rne_upper p q K : 0 < q -> 2 * p < (2 * K - 1) * q -> rne p q < K.
Proof.
  intros Hq Hp. unfold rne.
  pose proof (Z.div_mod p q ltac:(lia)) as Hdm.
  pose proof (Z.mod_pos_bound p q Hq) as Hr.
  set (k := p / q) in *. set (r := p mod q) in *.
  destruct (Z.ltb_spec (2 * r) q).
  - nia.
  - assert (k + 1 < K) by nia.
    destruct (q <? 2 * r); [lia|]. destruct (Z.even k); lia.
Qed.

Lemma rne_nonneg p q : 0 <= p -> 0 < q -> 0 <= rne p q.
Proof. intros. apply rne_lower; lia. Qed.

Lemma pow2_pos e : 0 < 2 ^ e \/ e < 0.
Proof. destruct (Z.lt_ge_cases e 0); [right; lia | left; apply Z.pow_pos_nonneg; lia]. Qed.

Lemma pow2_split a b : 0 <= a -> 0 <= b -> 2 ^ (a + b) = 2 ^ a * 2 ^ b.
Proof. intros. apply Z.pow_add_r; lia. Qed.

(* den/num scaling: (n/d)/2^e >= 2^k  <-> (n/d)/2^(e+k) >= 1 *)
Lemma scale_shift e k n d :
  0 < n -> 0 < d -> 0 <= k ->
  den (e + k) d <= num (e + k) n -> 2 ^ k * den e d <= num e n.
Proof.
  intros Hn Hd Hk. unfold den, num.
  destruct (Z.le_gt_cases 0 e) as [He|He].
  - rewrite (Z.max_r 0 (e + k)), (Z.max_l 0 (- (e + k))), (Z.max_r 0 e), (Z.max_l 0 (- e)) by lia.
    rewrite (pow2_split e k) by lia. rewrite !Z.pow_0_r.
    generalize (2 ^ e) (2 ^ k). intros; lia.
  - destruct (Z.le_gt_cases 0 (e + k)) as [Hek|Hek].
    + rewrite (Z.max_r 0 (e + k)), (Z.max_l 0 (- (e + k))), (Z.max_l 0 e), (Z.max_r 0 (- e)) by lia.
      replace (2 ^ k) with (2 ^ ((e + k) + (- e))) by (f_equal; lia).
      rewrite (pow2_split (e + k) (- e)) by lia. rewrite !Z.pow_0_r.
      assert (0 < 2 ^ (- e)) by (apply Z.pow_pos_nonneg; lia).
      revert H. generalize (2 ^ (e + k)) (2 ^ (- e)). intros; nia.
    + rewrite (Z.max_l 0 (e + k)), (Z.max_r 0 (- (e + k))), (Z.max_l 0 e), (Z.max_r 0 (- e)) by lia.
      replace (- e) with (k + (- (e + k))) by lia.
      rewrite (pow2_split k (- (e + k))) by lia. rewrite !Z.pow_0_r.
      assert (0 < 2 ^ k) by (apply Z.pow_pos_nonneg; lia).
      revert H. generalize (2 ^ k) (2 ^ (- (e + k))). intros; nia.
Qed.

Lemma log2_bounds n : 0 < n -> 0 <= Z.log2 n /\ 2 ^ Z.log2 n <= n < 2 * 2 ^ Z.log2 n.
Proof.
  intros Hn. pose proof (Z.log2_spec n Hn) as [H1 H2].
  pose proof (Z.log2_nonneg n) as H0.
  rewrite Z.pow_succ_r in H2 by exact H0. lia.
Qed.

Lemma ilog2_quot_lower n d :
  0 < n -> 0 < d -> den (ilog2_quot n d) d <= num (ilog2_quot n d) n.
Proof.
  intros Hn Hd. unfold ilog2_quot.
  set (g := Z.log2 n - Z.log2 d).
  destruct (Z.leb_spec (den g d) (num g n)) as [Ht|Ht]; [exact Ht|].
  clear Ht.
  destruct (log2_bounds n Hn) as (Ln & Hn1 & Hn2).
  destruct (log2_bounds d Hd) as (Ld & Hd1 & Hd2).
  unfold den, num.
  destruct (Z.le_gt_cases 0 (g - 1)) as [Hg|Hg].
  - rewrite (Z.max_r 0 (g - 1)), (Z.max_l 0 (- (g - 1))) by lia.
    rewrite Z.pow_0_r.
    assert (E : 2 * 2 ^ Z.log2 d * 2 ^ (g - 1) = 2 ^ Z.log2 n).
    { replace (Z.log2 n) with (1 + Z.log2 d + (g - 1)) by (unfold g; lia).
      rewrite (pow2_split (1 + Z.log2 d) (g - 1)) by lia.
      rewrite (pow2_split 1 (Z.log2 d)) by lia. reflexivity. }
    assert (P : 0 < 2 ^ (g - 1)) by (apply Z.pow_pos_nonneg; lia).
    revert E P Hn1 Hd2. generalize (2 ^ (g - 1)) (2 ^ Z.log2 d) (2 ^ Z.log2 n).
    intros; nia.
  - rewrite (Z.max_l 0 (g - 1)), (Z.max_r 0 (- (g - 1))) by lia.
    rewrite Z.pow_0_r.
    assert (E : 2 ^ Z.log2 n * 2 ^ (- (g - 1)) = 2 * 2 ^ Z.log2 d).
    { rewrite <- (pow2_split (Z.log2 n) (- (g - 1))) by lia.
      replace (Z.log2 n + - (g - 1)) with (1 + Z.log2 d) by (unfold g; lia).
      rewrite (pow2_split 1 (Z.log2 d)) by lia. reflexivity. }
    assert (P : 0 < 2 ^ (- (g - 1))) by (apply Z.pow_pos_nonneg; lia).
    revert E P Hn1 Hd2. generalize (2 ^ (- (g - 1))) (2 ^ Z.log2 d) (2 ^ Z.log2 n).
    intros; nia.
Qed.

Lemma ilog2_quot_upper n d :
  0 < n -> 0 < d -> num (ilog2_quot n d) n < 2 * den (ilog2_quot n d) d.
Proof.
  intros Hn Hd. unfold ilog2_quot.
  set (g := Z.log2 n - Z.log2 d).
  destruct (log2_bounds n Hn) as (Ln & Hn1 & Hn2).
  destruct (log2_bounds d Hd) as (Ld & Hd1 & Hd2).
  destruct (Z.leb_spec (den g d) (num g n)) as [Ht|Ht].
  - clear Ht. unfold den, num.
    destruct (Z.le_gt_cases 0 g) as [Hg|Hg].
    + rewrite (Z.max_r 0 g), (Z.max_l 0 (- g)) by lia. rewrite Z.pow_0_r.
      assert (E : 2 ^ Z.log2 d * 2 ^ g = 2 ^ Z.log2 n).
      { rewrite <- (pow2_split (Z.log2 d) g) by lia. f_equal. unfold g. lia. }
      assert (P : 0 < 2 ^ g) by (apply Z.pow_pos_nonneg; lia).
      revert E P Hn2 Hd1. generalize (2 ^ g) (2 ^ Z.log2 d) (2 ^ Z.log2 n).
      intros; nia.
    + rewrite (Z.max_l 0 g), (Z.max_r 0 (- g)) by lia. rewrite Z.pow_0_r.
      assert (E : 2 ^ Z.log2 n * 2 ^ (- g) = 2 ^ Z.log2 d).
      { rewrite <- (pow2_split (Z.log2 n) (- g)) by lia. f_equal. unfold g. lia. }
      assert (P : 0 < 2 ^ (- g)) by (apply Z.pow_pos_nonneg; lia).
      revert E P Hn2 Hd1. generalize (2 ^ (- g)) (2 ^ Z.log2 d) (2 ^ Z.log2 n).
      intros; nia.
  - revert Ht. unfold den, num.
    destruct (Z.le_gt_cases 1 g) as [Hg|Hg].
    + rewrite (Z.max_r 0 g), (Z.max_l 0 (- g)), (Z.max_r 0 (g - 1)),
        (Z.max_l 0 (- (g - 1))) by lia.
      rewrite !Z.pow_0_r.
      replace (2 ^ g) with (2 * 2 ^ (g - 1)).
      2:{ replace g with (1 + (g - 1)) at 2 by lia.
          rewrite (pow2_split 1 (g - 1)) by lia. reflexivity. }
      generalize (2 ^ (g - 1)). intros; lia.
    + rewrite (Z.max_l 0 g), (Z.max_r 0 (- g)), (Z.max_l 0 (g - 1)),
        (Z.max_r 0 (- (g - 1))) by lia.
      rewrite !Z.pow_0_r.
      replace (2 ^ (- (g - 1))) with (2 * 2 ^ (- g)).
      2:{ replace (- (g - 1)) with (1 + - g) by lia.
          rewrite (pow2_split 1 (- g)) by lia. reflexivity. }
      generalize (2 ^ (- g)). intros; lia.
Qed.

Lemma ilog2_quot_nonneg n d : 0 < d -> d <= n -> 0 <= ilog2_quot n d.
Proof.
  intros Hd Hn.
  pose proof (ilog2_quot_upper n d ltac:(lia) Hd) as U.
  destruct (Z.le_gt_cases 0 (ilog2_quot n d)) as [|Hneg]; [assumption|exfalso].
  revert U. unfold num, den.
  rewrite (Z.max_l 0 (ilog2_quot n d)), (Z.max_r 0 (- ilog2_quot n d)) by lia.
  rewrite Z.pow_0_r.
  replace (- ilog2_quot n d) with (1 + (- ilog2_quot n d - 1)) by lia.
  rewrite (pow2_split 1 (- ilog2_quot n d - 1)) by lia.
  assert (P : 0 < 2 ^ (- ilog2_quot n d - 1)) by (apply Z.pow_pos_nonneg; lia).
  revert P. generalize (2 ^ (- ilog2_quot n d - 1)). intros; nia.
Qed.

Lemma scale_shift_upper e k n d :
  0 < n -> 0 < d -> 0 <= k ->
  num (e + k) n < 2 * den (e + k) d -> num e n < 2 * 2 ^ k * den e d.
Proof.
  intros Hn Hd Hk. unfold den, num.
  destruct (Z.le_gt_cases 0 e) as [He|He].
  - rewrite (Z.max_r 0 (e + k)), (Z.max_l 0 (- (e + k))), (Z.max_r 0 e),
      (Z.max_l 0 (- e)) by lia.
    rewrite (pow2_split e k) by lia. rewrite !Z.pow_0_r.
    generalize (2 ^ e) (2 ^ k). intros; lia.
  - destruct (Z.le_gt_cases 0 (e + k)) as [Hek|Hek].
    + rewrite (Z.max_r 0 (e + k)), (Z.max_l 0 (- (e + k))), (Z.max_l 0 e),
        (Z.max_r 0 (- e)) by lia.
      replace (2 ^ k) with (2 ^ ((e + k) + (- e))) by (f_equal; lia).
      rewrite (pow2_split (e + k) (- e)) by lia. rewrite !Z.pow_0_r.
      assert (P : 0 < 2 ^ (- e)) by (apply Z.pow_pos_nonneg; lia).
      revert P. generalize (2 ^ (e + k)) (2 ^ (- e)). intros; nia.
    + rewrite (Z.max_l 0 (e + k)), (Z.max_r 0 (- (e + k))), (Z.max_l 0 e),
        (Z.max_r 0 (- e)) by lia.
      replace (- e) with (k + (- (e + k))) by lia.
      rewrite (pow2_split k (- (e + k))) by lia. rewrite !Z.pow_0_r.
      assert (P : 0 < 2 ^ k) by (apply Z.pow_pos_nonneg; lia).
      revert P. generalize (2 ^ k) (2 ^ (- (e + k))). intros; nia.
Qed.

(** Rounding a quotient that is at least one: the exponent is that of the
    normal numbers and the mantissa has 53 bits. *)
Lemma round_quot_normal n d :
  0 < d -> d <= n ->
  let e := ilog2_quot n d - 52 in
  let m := rne (num e n) (den e d) in
  round_quot n d = (m, e) /\ - 52 <= e /\
  2 ^ 52 * den e d <= num e n /\ num e n < 2 ^ 53 * den e d /\
  2 ^ 52 <= m <= 2 ^ 53.
Proof.
  intros Hd Hn e m.
  pose proof (ilog2_quot_nonneg n d Hd Hn) as Hlg.
  assert (Hn0 : 0 < n) by lia.
  assert (L : 2 ^ 52 * den e d <= num e n).
  { apply scale_shift; try lia. replace (e + 52) with (ilog2_quot n d) by (unfold e; lia).
    apply ilog2_quot_lower; lia. }
  assert (U : num e n < 2 ^ 53 * den e d).
  { change (2 ^ 53) with (2 * 2 ^ 52). apply scale_shift_upper; try lia.
    replace (e + 52) with (ilog2_quot n d) by (unfold e; lia).
    apply ilog2_quot_upper; lia. }
  assert (Dp : 0 < den e d).
  { unfold den. apply Z.mul_pos_pos; [lia|]. apply Z.pow_pos_nonneg; lia. }
  repeat split; try (unfold e; lia); try assumption.
  - unfold round_quot. fold e. rewrite Z.max_l by (unfold e; lia). reflexivity.
  - apply rne_lower; lia.
  - assert (m < 2 ^ 53 + 1); [|lia]. apply rne_upper; [lia|]. lia.
Qed.

Lemma trunc_normalize m e :
  trunc_dyadic (fst (normalize (m, e))) (snd (normalize (m, e))) = trunc_dyadic m e.
Proof.
  unfold normalize. destruct (Z.eqb_spec m (2 ^ 53)) as [->|]; [|reflexivity].
  cbn [fst snd]. unfold trunc_dyadic.
  destruct (Z.leb_spec 0 e) as [He|He].
  - rewrite (proj2 (Z.leb_le 0 (e + 1))) by lia.
    rewrite (pow2_split e 1) by lia. change (2 ^ 53) with (2 ^ 52 * 2 ^ 1). lia.
  - destruct (Z.leb_spec 0 (e + 1)) as [He1|He1].
    + replace e with (-1) by lia. reflexivity.
    + replace (- e) with (1 + - (e + 1)) by lia.
      rewrite (pow2_split 1 (- (e + 1))) by lia.
      rewrite <- Z.div_div by (try apply Z.pow_pos_nonneg; lia).
      reflexivity.
Qed.


(** What the rescale step computes on positive amounts. *)
Lemma rescale_spec a ds out :
  0 < a -> 0 < out -> out < ds ->
  let e := ilog2_quot (a * ds) out - 52 in
  let m := rne (num e (a * ds)) (den e out) in
  rescale a ds out =
    if 971 <? snd (normalize (m, e)) then inl OverflowError
    else inr (trunc_dyadic m e).
Proof.
  intros Ha Hout Hds e m.
  assert (Hn : out <= a * ds) by nia.
  destruct (round_quot_normal (a * ds) out Hout Hn) as (Hrq & He & _ & _ & Hm).
  fold e in Hrq, He, Hm. fold m in Hrq, Hm.
  unfold rescale, py_truediv.
  rewrite (proj2 (Z.eqb_neq out 0)) by lia.
  rewrite (proj2 (Z.eqb_neq (a * ds) 0)) by lia.
  rewrite (Z.abs_eq (a * ds)), (Z.abs_eq out) by lia.
  rewrite Hrq.
  rewrite <- (trunc_normalize m e).
  assert (Hm' : 2 ^ 52 <= fst (normalize (m, e)) <= 2 ^ 53).
  { unfold normalize. destruct (Z.eqb_spec m (2 ^ 53)); cbn [fst]; lia. }
  destruct (normalize (m, e)) as [m' e']. cbn [fst snd] in *.
  change (emax - prec) with 971.
  destruct (971 <? e'); [reflexivity|].
  rewrite (proj2 (Z.eqb_neq m' 0)) by lia.
  rewrite (proj2 (Z.ltb_ge (a * ds) 0)) by lia.
  rewrite (proj2 (Z.ltb_ge out 0)) by lia.
  cbn [xorb py_int]. rewrite Z2Pos.id by lia. reflexivity.
Qed.

Lemma rescale_zero ds out : out <> 0 -> rescale 0 ds out = inr 0.
Proof.
  intros H. unfold rescale, py_truediv. rewrite (proj2 (Z.eqb_neq out 0) H).
  reflexivity.
Qed.

(** Below [2 ^ 53] the float quotient truncates to the exact floor. *)
Lemma rescale_exact_floor a ds out :
  0 <= a -> 0 < out -> out < ds -> a * ds < 2 ^ 53 ->
  rescale a ds out = inr (a * ds / out).
Proof.
  intros Ha Hout Hds Hsmall.
  destruct (Z.eq_dec a 0) as [->|Ha0].
  { rewrite rescale_zero by lia. reflexivity. }
  assert (Ha' : 0 < a) by lia.
  rewrite (rescale_spec a ds out Ha' Hout Hds).
  assert (Hn : out <= a * ds) by nia.
  destruct (round_quot_normal (a * ds) out Hout Hn) as (_ & He & L & U & Hm).
  set (n := a * ds) in *.
  set (e := ilog2_quot n out - 52) in *.
  set (m := rne (num e n) (den e out)) in *.
  assert (He0 : e <= 0).
  { destruct (Z.le_gt_cases e 0) as [|Hpos]; [assumption|exfalso].
    revert L. unfold den, num.
    rewrite (Z.max_r 0 e), (Z.max_l 0 (- e)) by lia. rewrite Z.pow_0_r.
    assert (P : 2 <= 2 ^ e).
    { change 2 with (2 ^ 1) at 1. apply Z.pow_le_mono_r; lia. }
    revert P. generalize (2 ^ e). intros; nia. }
  assert (Hsnd : snd (normalize (m, e)) <= e + 1).
  { unfold normalize. destruct (m =? 2 ^ 53); cbn [snd]; lia. }
  rewrite (proj2 (Z.ltb_ge 971 (snd (normalize (m, e))))) by lia.
  f_equal.
  assert (T : trunc_dyadic m e = m / 2 ^ (- e)).
  { unfold trunc_dyadic. destruct (Z.leb_spec 0 e); [|reflexivity].
    replace e with 0 by lia. simpl. rewrite Z.div_1_r. lia. }
  rewrite T.
  revert L U. subst m. unfold den, num.
  rewrite (Z.max_l 0 e), (Z.max_r 0 (- e)) by lia. rewrite Z.pow_0_r, Z.mul_1_r.
  assert (P : 0 < 2 ^ (- e)) by (apply Z.pow_pos_nonneg; lia).
  revert P. generalize (2 ^ (- e)). intros s P L U.
  pose proof (Z.div_mod n out ltac:(lia)) as Hdm.
  pose proof (Z.mod_pos_bound n out Hout) as Hr.
  set (k := n / out) in *.
  symmetry. apply Z.div_unique with (r := rne (n * s) out - k * s).
  - left. split.
    + assert (k * s <= rne (n * s) out); [|lia]. apply rne_lower; [lia|]. nia.
    + assert (rne (n * s) out < (k + 1) * s); [|lia]. apply rne_upper; [lia|]. nia.
  - lia.
Qed.




(** *** The floats that [SFmul] and [SFadd] produce *)















End PyNumFacts.

(** ** Properties of the calculators *)
Module ZapFacts.
Import PyNum Zap PyNumFacts.

Ltac unfold_run :=
  cbv beta iota zeta delta [bind call lift ret raise out_of_fuel py_assert of_result].

Section Loop.
Variable env : Env.
Variables (zap collateral : address) (max_slippage : pyfloat) (ds : Z).

Lemma close_loop_unfold fuel ain aout pid :
  close_loop env zap collateral max_slippage ds fuel ain aout pid =
  if aout <? ds then
    match fuel with
    | O => out_of_fuel
    | S fuel' =>
        bind (lift (rescale ain ds aout)) (fun ain' =>
        bind (call (fun tr => odos_get_quote env tr (chain_id env) zap collateral
                             MONEY ain' max_slippage)
                (E_get_quote (chain_id env) zap collateral MONEY ain'
                   max_slippage)) (fun x => match x with (aout', pid') =>
        close_loop env zap collateral max_slippage ds fuel' ain' aout' pid' end))
    end
  else ret (ain, aout, pid).
Proof. destruct fuel; reflexivity. Qed.

(** The loop leaves with an output that covers the shortfall, and its three
    variables are those of the last quote: the one before the loop when the
    body never ran, its own last one otherwise. *)
Lemma close_loop_returns fuel : forall ain aout pid tr ain' aout' pid' tr',
  close_loop env zap collateral max_slippage ds fuel ain aout pid tr
    = (Ret (ain', aout', pid'), tr') ->
  ds <= aout' /\
  ((tr' = tr /\ (ain', aout', pid') = (ain, aout, pid)) \/
   exists mid, tr' = tr ++ mid ++
     [E_get_quote (chain_id env) zap collateral MONEY ain' max_slippage
        (inr (aout', pid'))]).
Proof.
  induction fuel as [|fuel IH]; intros ain aout pid tr ain' aout' pid' tr' H;
    rewrite close_loop_unfold in H;
    destruct (Z.ltb_spec aout ds) as [Hlt|Hge].
  - discriminate.
  - inversion H; subst. split; [lia|]. left. auto.
  - revert H. unfold_run.
    destruct (rescale ain ds aout) as [e|a1]; [discriminate|].
    destruct (odos_get_quote env tr (chain_id env) zap collateral MONEY a1
                max_slippage) as [e|[o1 p1]] eqn:Hq; [discriminate|].
    intros H. apply IH in H. destruct H as (Hds & [(-> & Heq) | (mid & ->)]).
    + inversion Heq; subst. split; [assumption|]. right. exists []. reflexivity.
    + split; [assumption|]. right.
      exists (E_get_quote (chain_id env) zap collateral MONEY a1 max_slippage
                (inr (o1, p1)) :: mid).
      rewrite <- app_assoc. reflexivity.
  - inversion H; subst. split; [lia|]. left. auto.
Qed.

(** The loop only adds to the trace. *)
Lemma close_loop_extends fuel : forall ain aout pid tr o tr',
  close_loop env zap collateral max_slippage ds fuel ain aout pid tr = (o, tr') ->
  exists mid, tr' = tr ++ mid.
Proof.
  induction fuel as [|fuel IH]; intros ain aout pid tr o tr' H;
    rewrite close_loop_unfold in H; destruct (aout <? ds);
    try (inversion H; subst; exists []; rewrite app_nil_r; reflexivity).
  revert H. unfold_run.
  destruct (rescale ain ds aout) as [e|a1];
    [intros H; inversion H; subst; exists []; rewrite app_nil_r; reflexivity|].
  destruct (odos_get_quote env tr (chain_id env) zap collateral MONEY a1
              max_slippage) as [e|[o1 p1]].
  - intros H; inversion H; subst. eexists. reflexivity.
  - intros H. apply IH in H. destruct H as (mid & ->).
    rewrite <- app_assoc. eexists. reflexivity.
Qed.

(** When the output already covers the shortfall the loop does nothing. *)
Lemma close_loop_skip fuel ain aout pid tr :
  ds <= aout ->
  close_loop env zap collateral max_slippage ds fuel ain aout pid tr
    = (Ret (ain, aout, pid), tr).
Proof.
  intros H. rewrite close_loop_unfold.
  rewrite (proj2 (Z.ltb_ge aout ds)) by lia. reflexivity.
Qed.
End Loop.

(** One step of a run: case analysis on the next answer or test. *)
Ltac step H :=
  lazymatch type of H with
  | (_, _) = (_, _) => fail
  | _ =>
      match type of H with
      | context [match ?x with inl _ => _ | inr _ => _ end] =>
          destruct x as [?|?] eqn:?
      | context [if ?b then _ else _] => destruct b eqn:?
      | context [match ?p with (_, _) => _ end] => is_var p; destruct p
      | context [close_loop ?e ?z ?c ?s ?d ?f ?a ?o ?p ?t] =>
          let Hloop := fresh "Hloop" in
          let Hext := fresh "Hext" in
          destruct (close_loop e z c s d f a o p t)
            as [[[[? ?] ?]|?|] ?] eqn:Hloop;
          pose proof (close_loop_extends _ _ _ _ _ _ _ _ _ _ _ _ Hloop) as Hext;
          destruct Hext as (? & ?); subst
      end
  end.

(** At the end of a run the outcome and the trace are known; the trace is
    matched against the shape it was said to have. *)
Ltac finish H :=
  let Ho := fresh "Ho" in
  let Ht := fresh "Ht" in
  apply pair_equal_spec in H; destruct H as [Ho Ht];
  simpl in Ht; inversion Ht; subst; clear Ht.


Ltac step_list H :=
  first
    [ step H
    | match type of H with
      | context [match ?l with nil => _ | cons _ _ => _ end] =>
          destruct l eqn:?
      end ].


Section Close.
Variable to_int : pyfloat -> Z -> exn + Z.
Variable env : Env.

(** The steps of a run of the close-loan calculator after its reads. *)
Ltac close_tail H coll price dec seed out0 pid0 Hloop :=
  repeat match type of H with
         | context [if ?b then _ else _] => destruct b eqn:?; [|discriminate H]
         end;
  destruct (controller_get_oracle_price env _ _) as [?|price] in H;
    [discriminate H|];
  destruct (py_truediv _ price) as [?|?] in H; [discriminate H|];
  destruct (py_float_of_int 1) as [?|?] in H; [discriminate H|];
  destruct (token_decimals env _ _) as [?|dec] in H; [discriminate H|];
  destruct (to_int _ dec) as [?|seed] in H; [discriminate H|];
  destruct (odos_get_quote env _ _ _ _ _ seed _) as [?|[out0 pid0]] in H;
    [discriminate H|];
  match type of H with
  | context [close_loop ?e ?z ?c ?s ?d ?f ?a ?o ?p ?t] =>
      destruct (close_loop e z c s d f a o p t)
        as [[[[? ?] ?]| |] ?] eqn:Hloop; try discriminate H
  end;
  destruct (odos_get_route_calldata env _ _ _) as [?|?] in H;
    [discriminate H|];
  inversion H; subst; clear H;
  apply close_loop_returns in Hloop.

(** C1. Every run of the close-loan calculator that returns has read the
    collateral token, the balance (when used) and the close-loan amounts,
    and ends with a quote followed by the request of its calldata: the
    returned [amount_in] is the amount asked in that last quote, the
    returned [amount_out] its answer, the returned routing data the calldata
    of its route identifier, and [amount_out] covers
    [debt_shortfall = -(balance if used else 0, plus debt_amm)]. *)
Theorem close_loan_returns zap account market use slip fuel data ain aout tr :
  get_close_loan_routing_data to_int env zap account market use slip fuel []
    = (Ret (data, ain, aout), tr) ->
  exists collateral balance debt_amm coll_amm mid path_id,
    tr = close_reads account market use collateral balance debt_amm coll_amm
         ++ mid
         ++ [E_get_quote (chain_id env) zap collateral MONEY ain slip
               (inr (aout, path_id));
             E_get_route_calldata zap path_id (inr data)]
    /\ shortfall use balance debt_amm <= aout.
Proof.
  unfold get_close_loan_routing_data, shortfall, close_reads.
  unfold_run. intros H.
  destruct (controller_get_collateral env [] market) as [?|coll];
    [discriminate|].
  destruct use.
  - destruct (token_balanceOf env _ MONEY account) as [?|bal] in H;
      [discriminate|].
    destruct (controller_get_close_loan_amounts env _ account market)
      as [?|[damm camm]] in H; [discriminate|].
    close_tail H coll price dec seed out0 pid0 Hloop.
    destruct Hloop as (Hds & [(-> & Heq) | (mid & ->)]).
    + inversion Heq; subst.
      exists coll, bal, damm, camm,
        [E_get_oracle_price coll (inr price); E_decimals coll (inr dec)], pid0.
      split; [reflexivity|assumption].
    + exists coll, bal, damm, camm,
        ([E_get_oracle_price coll (inr price); E_decimals coll (inr dec);
          E_get_quote (chain_id env) zap coll MONEY seed slip
            (inr (out0, pid0))] ++ mid).
      eexists. split; [|eassumption].
      simpl. rewrite <- !app_assoc. reflexivity.
  - destruct (controller_get_close_loan_amounts env _ account market)
      as [?|[damm camm]] in H; [discriminate|].
    close_tail H coll price dec seed out0 pid0 Hloop.
    destruct Hloop as (Hds & [(-> & Heq) | (mid & ->)]).
    + inversion Heq; subst.
      exists coll, 0, damm, camm,
        [E_get_oracle_price coll (inr price); E_decimals coll (inr dec)], pid0.
      split; [reflexivity|assumption].
    + exists coll, 0, damm, camm,
        ([E_get_oracle_price coll (inr price); E_decimals coll (inr dec);
          E_get_quote (chain_id env) zap coll MONEY seed slip
            (inr (out0, pid0))] ++ mid).
      eexists. split; [|eassumption].
      simpl. rewrite <- !app_assoc. reflexivity.
Qed.

(** C5. When the close-loan amounts read are [debt_amm >= 0] or
    [coll_amm <= 0], or the shortfall they give is not positive, the run
    stops there with [AssertionError]: nothing follows the reads, so no quote
    and no route calldata is requested. *)
Theorem close_loan_precondition
    zap account market use slip fuel o tr coll bal damm camm rest :
  get_close_loan_routing_data to_int env zap account market use slip fuel []
    = (o, tr) ->
  tr = close_reads account market use coll bal damm camm ++ rest ->
  0 <= damm \/ camm <= 0 \/ shortfall use bal damm <= 0 ->
  o = Raise AssertionError /\ rest = [] /\
  quoted_amounts tr = [] /\ calldata_requests tr = [].
Proof.
  unfold get_close_loan_routing_data, shortfall, close_reads.
  unfold_run. intros H Htr Hpre. subst tr.
  repeat step H; finish H;
    try (repeat split; reflexivity); exfalso; lia.
Qed.

Lemma app_eq_self {A} (l x : list A) : l = l ++ x -> x = [].
Proof.
  intros H. apply (app_inv_head l). rewrite app_nil_r. symmetry. exact H.
Qed.

(** C4. When the answer to the first quote request already covers the
    shortfall, the loop body never runs: that quote is the only one of the
    run, only the request of its calldata follows it, and the run returns
    the seed and the answer of that quote (or raises what the calldata
    request raised). *)
Theorem close_loan_first_quote_suffices
    zap account market use slip fuel o tr coll bal damm camm rest
    seed out0 pid :
  get_close_loan_routing_data to_int env zap account market use slip fuel []
    = (o, tr) ->
  tr = close_reads account market use coll bal damm camm ++ rest ->
  first_quote rest = Some (seed, inr (out0, pid)) ->
  shortfall use bal damm <= out0 ->
  quoted_amounts tr = [seed] /\
  exists pre r,
    rest = pre ++ [E_get_quote (chain_id env) zap coll MONEY seed slip
                     (inr (out0, pid));
                   E_get_route_calldata zap pid r] /\
    quoted_amounts pre = [] /\
    o = match r with
        | inl e => Raise e
        | inr data => Ret (data, seed, out0)
        end.
Proof.
  unfold get_close_loan_routing_data, shortfall, close_reads.
  unfold_run. intros H Htr Hfq Hcov. subst tr.
  repeat step H; finish H; simpl in Hfq; try discriminate Hfq;
    inversion Hfq; subst; clear Hfq;
    rewrite close_loop_skip in Hloop by lia;
    apply pair_equal_spec in Hloop; destruct Hloop as [Hret Hmid];
    try discriminate Hret;
    apply app_eq_self in Hmid; subst;
    inversion Hret; subst; clear Hret;
    (split; [reflexivity|]);
    match goal with
    | |- exists pre r, ?a :: ?b :: _ = _ /\ _ => exists [a; b]
    end;
    eexists; (split; [reflexivity|]); split; reflexivity.
Qed.

(** The amount of the first quote request is the seed: the shortfall over
    the oracle price, times one plus the slippage, through [to_int] with
    the decimals of the collateral token. *)
Lemma close_loan_seed
    zap account market use slip fuel o tr coll bal damm camm rest seed r :
  get_close_loan_routing_data to_int env zap account market use slip fuel []
    = (o, tr) ->
  tr = close_reads account market use coll bal damm camm ++ rest ->
  first_quote rest = Some (seed, r) ->
  exists price decimals quotient one rest',
    rest = E_get_oracle_price coll (inr price)
           :: E_decimals coll (inr decimals)
           :: E_get_quote (chain_id env) zap coll MONEY seed slip r :: rest' /\
    py_truediv (shortfall use bal damm) price = inr quotient /\
    py_float_of_int 1 = inr one /\
    to_int (py_float_mul quotient (py_float_add one slip)) decimals = inr seed.
Proof.
  unfold get_close_loan_routing_data, shortfall, close_reads.
  unfold_run. intros H Htr Hfq. subst tr.
  repeat step H; finish H; simpl in Hfq; try discriminate Hfq;
    inversion Hfq; subst; clear Hfq;
    do 5 eexists; (split; [reflexivity|]); repeat split; eassumption.
Qed.

End Close.

Section Single.
Variable env : Env.

Lemma increase_loan_returns
    zap account market coll_amount debt_amount slip data total health tr :
  get_increase_loan_routing_data env zap account market coll_amount
    debt_amount slip [] = (Ret (data, total, health), tr) ->
  exists coll coll_in pid coll_existing others,
    tr = [E_get_collateral market (inr coll);
          E_get_quote (chain_id env) zap MONEY coll debt_amount slip
            (inr (coll_in, pid));
          E_user_state market account (inr (coll_existing :: others));
          E_pending_account_state_calculator market account
            (coll_amount + coll_in) debt_amount 0 (inr health);
          E_get_route_calldata zap pid (inr data)] /\
    total = coll_existing + coll_amount + coll_in.
Proof.
  unfold get_increase_loan_routing_data. unfold_run. intros H.
  repeat step_list H; try discriminate H; inversion H; subst; clear H.
  do 5 eexists. split; reflexivity.
Qed.

(** C9. A run of the decrease-loan calculator that returns has asked exactly
    one quote, of the whole withdrawn collateral into the stable token,
    returns the answer of that quote unchanged as the debt repaid, and has
    asked the health for the deltas minus the withdrawn collateral and minus
    the quoted amount, with zero bands. *)
Theorem decrease_loan_quote_and_health
    zap account market coll_amount slip data debt_in health tr :
  get_decrease_loan_routing_data env zap account market coll_amount slip []
    = (Ret (data, debt_in, health), tr) ->
  exists coll pid,
    tr = [E_get_collateral market (inr coll);
          E_get_quote (chain_id env) zap coll MONEY coll_amount slip
            (inr (debt_in, pid));
          E_pending_account_state_calculator market account
            (- coll_amount) (- debt_in) 0 (inr health);
          E_get_route_calldata zap pid (inr data)].
Proof.
  unfold get_decrease_loan_routing_data. unfold_run. intros H.
  repeat step_list H; try discriminate H; inversion H; subst; clear H.
  do 2 eexists. reflexivity.
Qed.

(** C7. A run of the collateral-converted close-and-recreate calculator that
    returns has read [debt_amm > 0] and [coll_amm] from the AMM, has asked
    exactly one quote, of the whole [debt_amm] from the stable token into
    the collateral, and returns the collateral added by the caller plus
    [coll_amm] plus the answer of the quote; a run that reads
    [debt_amm <= 0] stops there with [AssertionError]. *)
Theorem coll_converted_close_and_create zap account market coll_amount slip o tr :
  get_coll_converted_close_and_create_routing_data env zap account market
    coll_amount slip [] = (o, tr) ->
  (forall data total, o = Ret (data, total) ->
     exists contracts coll amm debt_amm coll_amm received pid,
       removelast contracts = [coll; amm] /\
       tr = [E_market_contracts market (inr contracts);
             E_get_sum_xy amm account (inr (debt_amm, coll_amm));
             E_get_quote (chain_id env) zap MONEY coll debt_amm slip
               (inr (received, pid));
             E_get_route_calldata zap pid (inr data)] /\
       0 < debt_amm /\
       total = coll_amount + coll_amm + received) /\
  (forall contracts amm debt_amm coll_amm rest,
     tr = E_market_contracts market (inr contracts)
          :: E_get_sum_xy amm account (inr (debt_amm, coll_amm)) :: rest ->
     debt_amm <= 0 ->
     o = Raise AssertionError /\ rest = []).
Proof.
  unfold get_coll_converted_close_and_create_routing_data. unfold_run.
  intros H.
  repeat step_list H; apply pair_equal_spec in H; destruct H as [<- <-];
    (split;
     [ intros data total Hret; try discriminate Hret;
       inversion Hret; subst; clear Hret;
       do 7 eexists; (split; [eassumption|]);
       (split; [reflexivity|]); (split; [lia|reflexivity])
     | intros contracts amm' debt_amm coll_amm rest Htr Hneg;
       simpl in Htr; inversion Htr; subst;
       try (split; reflexivity); exfalso; lia ]).
Qed.
End Single.

(** *** The rescale step *)

Lemma nearest_div_differs n d :
  0 < d -> (n / d <> nearest_div n d <-> d <= 2 * (n mod d)).
Proof.
  intros Hd. unfold nearest_div.
  pose proof (Z.div_mod n d ltac:(lia)) as Hdm.
  pose proof (Z.mod_pos_bound n d Hd) as Hr.
  set (q := n / d) in *. set (r := n mod d) in *.
  destruct (Z.le_gt_cases d (2 * r)) as [Hhalf|Hhalf].
  - assert ((2 * n + d) / (2 * d) = q + 1) as ->.
    { symmetry. apply Z.div_unique with (r := 2 * r - d); lia. }
    split; intros; lia.
  - assert ((2 * n + d) / (2 * d) = q) as ->.
    { symmetry. apply Z.div_unique with (r := 2 * r + d); lia. }
    split; intros; lia.
Qed.

(** C2, as the code has it. In an iteration of the loop on a non-negative
    [amount_in] and a positive [amount_out], with the exact product
    [amount_in * debt_shortfall] below [2 ^ 53], the next amount quoted is
    the exact floor of the product over [amount_out]; it differs from the
    rounded-to-nearest variant exactly when the remainder is at least half
    of [amount_out]. *)
Theorem rescale_truncates env zap collateral slip ds fuel a out pid tr :
  0 <= a -> 0 < out -> out < ds -> a * ds < 2 ^ 53 ->
  rescale a ds out = inr (a * ds / out) /\
  close_loop env zap collateral slip ds (S fuel) a out pid tr =
    bind (call (fun tr => odos_get_quote env tr (chain_id env) zap collateral
                            MONEY (a * ds / out) slip)
               (E_get_quote (chain_id env) zap collateral MONEY (a * ds / out)
                  slip))
         (fun x => match x with
                   | (out', pid') =>
                       close_loop env zap collateral slip ds fuel
                         (a * ds / out) out' pid'
                   end) tr /\
  (a * ds / out <> nearest_div (a * ds) out <->
   out <= 2 * ((a * ds) mod out)).
Proof.
  intros Ha Hout Hds Hsmall.
  pose proof (rescale_exact_floor a ds out Ha Hout Hds Hsmall) as Hre.
  split; [exact Hre|]. split.
  - rewrite close_loop_unfold.
    rewrite (proj2 (Z.ltb_lt out ds)) by lia.
    unfold bind at 1. unfold lift. rewrite Hre. reflexivity.
  - apply nearest_div_differs. lia.
Qed.

Lemma rescale_truncates_witness :
  rescale 3 3 2 = inr 4 /\ 4 <> nearest_div (3 * 3) 2.
Proof.
  destruct (rescale_truncates (scenario_env 0 flat_quote) "zap"%string
              "collateral"%string default_max_slippage 3 0 3 2 "route"%string
              []) as (H1 & _ & H3); try lia.
  split; [exact H1|]. apply H3. vm_compute. discriminate.
Defined.

(** The claim C2 as it is written fails twice: on a product of 61 bits the
    code returns 2 where the exact floor is 1, and on the product 4 over 3,
    which is not divisible, the truncated and the rounded-to-nearest
    quotients are the same. *)
Lemma rescale_not_exact_floor :
  rescale 1 (2 ^ 61 - 1) (2 ^ 60) = inr 2 /\
  (1 * (2 ^ 61 - 1)) / 2 ^ 60 = 1 /\
  rescale 1 4 3 = inr 1 /\
  (1 * 4) mod 3 <> 0 /\
  nearest_div (1 * 4) 3 = 1.
Proof. vm_compute. repeat split; discriminate. Qed.


(** The loop lemma needs an amount that a float holds: from [2 ^ 54 + 1],
    with an output one unit short of the shortfall, the rescaled amount is
    [2 ^ 54]. With the seed rounded up as the specification has it, no run
    of the calculator holds such an amount: the seed and every rescaled
    amount are held by a float. *)
Lemma rescale_can_decrease :
  10 ^ 18 - 1 < 10 ^ 18 /\
  rescale (2 ^ 54 + 1) (10 ^ 18) (10 ^ 18 - 1) = inr (2 ^ 54) /\
  2 ^ 54 < 2 ^ 54 + 1.
Proof. vm_compute. repeat split; reflexivity. Qed.




(** *** The scenarios of the specification *)

Lemma default_max_slippage_literal :
  py_truediv 3 1000 = inr default_max_slippage.
Proof. vm_compute. reflexivity. Qed.

Lemma flat_quote_monotone x y : x <= y -> flat_quote x <= flat_quote y.
Proof. unfold flat_quote. lia. Qed.

Lemma flat_quote_positive x : 0 < x -> 0 < flat_quote x.
Proof. unfold flat_quote. lia. Qed.

Lemma flat_loop_stalls zap collateral slip fuel : forall tr,
  fst (close_loop (scenario_env (- 1000000) flat_quote) zap collateral slip
         1000000 fuel 502 998980 "route"%string tr) = OutOfFuel.
Proof.
  induction fuel as [|fuel IH]; intros tr; rewrite close_loop_unfold.
  - reflexivity.
  - change (998980 <? 1000000) with true. cbv iota.
    unfold bind at 1. unfold lift.
    replace (rescale 502 1000000 998980) with (@inr exn Z 502)
      by (vm_compute; reflexivity).
    cbv beta iota delta [of_result bind call scenario_env odos_get_quote
                           chain_id flat_quote].
    change (1990 * 502) with 998980. apply IH.
Qed.

(** C3, on the code. The flat price of 1990 per unit never decreases, is
    positive on positive amounts and reaches the shortfall 1_000_000 at 503
    units, yet from the seed 502 the loop rescales 502 to 502 and never
    leaves: whatever the fuel, neither the loop nor the calculator
    returns. *)
Theorem close_loop_stalls :
  flat_quote 502 = 998980 /\
  1000000 <= flat_quote 503 /\
  rescale 502 1000000 998980 = inr 502 /\
  (forall fuel tr,
     fst (close_loop (scenario_env (- 1000000) flat_quote) "zap"%string
            "collateral"%string default_max_slippage 1000000 fuel 502
            (flat_quote 502) "route"%string tr) = OutOfFuel) /\
  (forall fuel, fst (scenario_close flat_quote fuel) = OutOfFuel).
Proof.
  split; [reflexivity|]. split; [vm_compute; discriminate|].
  split; [vm_compute; reflexivity|]. split.
  - intros fuel tr. apply flat_loop_stalls.
  - intros fuel.
    pose proof (flat_loop_stalls "zap"%string "collateral"%string
                  default_max_slippage fuel
                  [E_get_collateral "market"%string (inr "collateral"%string);
                   E_get_close_loan_amounts "account"%string "market"%string
                     (inr (- 1000000, 1000));
                   E_get_oracle_price "collateral"%string (inr 2000);
                   E_decimals "collateral"%string (inr 18);
                   E_get_quote 1 "zap"%string "collateral"%string MONEY 502
                     default_max_slippage (inr (998980, "route"%string))])
      as Hloop.
    unfold scenario_close, get_close_loan_routing_data.
    unfold_run.
    cbv beta iota delta [scenario_env controller_get_collateral
      controller_get_close_loan_amounts controller_get_oracle_price
      token_decimals odos_get_quote chain_id] in *.
    simpl app.
    change (- 1000000 <? 0) with true. change (0 <? 1000) with true.
    change (0 <? - (0 + - 1000000)) with true. cbv iota.
    replace (py_truediv (- (0 + - 1000000)) 2000)
      with (@inr exn pyfloat (S754_finite false 8796093022208000 (- 44)))
      by (vm_compute; reflexivity).
    replace (py_float_of_int 1)
      with (@inr exn pyfloat (S754_finite false 4503599627370496 (- 52)))
      by (vm_compute; reflexivity).
    cbv iota beta.
    replace (ceil_to_token_precision _ 18) with (@inr exn Z 502)
      by (vm_compute; reflexivity).
    cbv iota beta.
    change (flat_quote 502) with 998980.
    change (- (0 + - 1000000)) with 1000000.
    destruct (close_loop _ _ _ _ _ _ _ _ _ _) as [[[[? ?] ?]|?|] ?];
      simpl in Hloop; try discriminate Hloop. reflexivity.
Qed.

(** C6. With [to_int] the rounding up of the specification, the amount of
    the first quote request of the close-loan calculator is the seed: the
    shortfall divided by the oracle price read for the collateral, times
    one plus the slippage, rounded up. For a shortfall of 1_000_000, a price
    of 2000 and a slippage of 0.003 it is 502, the ceiling of
    1_000_000 / 2000 * 1.003. The division, the sum and the product are
    those of Python floats. *)
Theorem close_loan_seed_ceil :
  (forall env zap account market use slip fuel o tr coll bal damm camm rest
          seed r,
     get_close_loan_routing_data ceil_to_token_precision env zap account
       market use slip fuel [] = (o, tr) ->
     tr = close_reads account market use coll bal damm camm ++ rest ->
     first_quote rest = Some (seed, r) ->
     exists price decimals quotient one rest',
       rest = E_get_oracle_price coll (inr price)
              :: E_decimals coll (inr decimals)
              :: E_get_quote (chain_id env) zap coll MONEY seed slip r
              :: rest' /\
       py_truediv (shortfall use bal damm) price = inr quotient /\
       py_float_of_int 1 = inr one /\
       ceil_to_token_precision
         (py_float_mul quotient (py_float_add one slip)) decimals
       = inr seed) /\
  first_quote (snd (scenario_close flat_quote 0))
    = Some (502, inr (998980, "route"%string)) /\
  502 = - (- (1000000 * 1003) / (2000 * 1000)).
Proof.
  split; [|split; vm_compute; reflexivity].
  intros. eapply close_loan_seed; eassumption.
Qed.

Lemma close_loan_seed_ceil_witness :
  exists price decimals quotient one,
    py_truediv 1000000 price = inr quotient /\
    py_float_of_int 1 = inr one /\
    ceil_to_token_precision
      (py_float_mul quotient (py_float_add one default_max_slippage)) decimals
    = inr 502.
Proof.
  destruct (proj1 close_loan_seed_ceil (scenario_env (- 1000000) flat_quote)
              "zap"%string "account"%string "market"%string false
              default_max_slippage 0%nat
              (fst (scenario_close flat_quote 0))
              (snd (scenario_close flat_quote 0))
              "collateral"%string 0 (- 1000000) 1000
              (skipn 2 (snd (scenario_close flat_quote 0)))
              502 (inr (998980, "route"%string)))
    as (price & decimals & quotient & one & rest' & _ & H1 & H2 & H3).
  - vm_compute. reflexivity.
  - vm_compute. reflexivity.
  - vm_compute. reflexivity.
  - exists price, decimals, quotient, one. repeat split; assumption.
Defined.

(** C8. A run of the increase-loan calculator that returns has asked the
    health for the added collateral (the caller's plus the answer of the
    quote) and the added debt, with zero bands, and returns as total
    collateral the existing collateral plus the caller's plus the answer of
    the quote. With 5000 of existing collateral, none added, a debt increase
    of 1000 and a quote answering 450, the total is 5450. *)
Theorem increase_loan_total_collateral :
  (forall env zap account market coll_amount debt_amount slip data total
          health tr,
     get_increase_loan_routing_data env zap account market coll_amount
       debt_amount slip [] = (Ret (data, total, health), tr) ->
     exists coll coll_in pid coll_existing others,
       tr = [E_get_collateral market (inr coll);
             E_get_quote (chain_id env) zap MONEY coll debt_amount slip
               (inr (coll_in, pid));
             E_user_state market account (inr (coll_existing :: others));
             E_pending_account_state_calculator market account
               (coll_amount + coll_in) debt_amount 0 (inr health);
             E_get_route_calldata zap pid (inr data)] /\
       total = coll_existing + coll_amount + coll_in) /\
  fst (get_increase_loan_routing_data (scenario_env 0 (fun _ => 450))
         "zap"%string "account"%string "market"%string 0 1000
         default_max_slippage [])
  = Ret ("0xc0de"%string, 5450, - 550).
Proof.
  split; [|vm_compute; reflexivity].
  intros. eapply increase_loan_returns; eassumption.
Qed.

Lemma increase_loan_total_collateral_witness :
  exists coll_in coll_existing, 5450 = coll_existing + 0 + coll_in.
Proof.
  destruct (proj1 increase_loan_total_collateral
              (scenario_env 0 (fun _ => 450))
              "zap"%string "account"%string "market"%string 0 1000
              default_max_slippage "0xc0de"%string 5450 (- 550)
              (snd (get_increase_loan_routing_data
                      (scenario_env 0 (fun _ => 450))
                      "zap"%string "account"%string "market"%string 0 1000
                      default_max_slippage [])))
    as (coll & coll_in & pid & coll_existing & others & _ & H).
  - vm_compute. reflexivity.
  - exists coll_in, coll_existing. exact H.
Defined.

(** *** The properties on a run *)

Lemma close_loan_returns_witness :
  exists collateral balance debt_amm coll_amm mid path_id,
    snd (scenario_close stepped_quote 5)
    = close_reads "account"%string "market"%string false collateral balance
        debt_amm coll_amm
      ++ mid
      ++ [E_get_quote 1 "zap"%string collateral MONEY 526
            default_max_slippage (inr (1052000, path_id));
          E_get_route_calldata "zap"%string path_id (inr "0xc0de"%string)]
    /\ shortfall false balance debt_amm <= 1052000.
Proof.
  apply (close_loan_returns ceil_to_token_precision
           (scenario_env (- 1000000) stepped_quote)
           "zap"%string "account"%string "market"%string false
           default_max_slippage 5%nat "0xc0de"%string 526 1052000
           (snd (scenario_close stepped_quote 5))).
  vm_compute. reflexivity.
Defined.

Lemma close_loan_precondition_witness :
  fst (get_close_loan_routing_data ceil_to_token_precision
         (scenario_env 5 flat_quote) "zap"%string "account"%string
         "market"%string true default_max_slippage 3 [])
  = Raise AssertionError.
Proof.
  apply (close_loan_precondition ceil_to_token_precision
           (scenario_env 5 flat_quote) "zap"%string "account"%string
           "market"%string true default_max_slippage 3%nat _
           (snd (get_close_loan_routing_data ceil_to_token_precision
                   (scenario_env 5 flat_quote) "zap"%string "account"%string
                   "market"%string true default_max_slippage 3 []))
           "collateral"%string 0 5 1000 []).
  - vm_compute. reflexivity.
  - vm_compute. reflexivity.
  - left. lia.
Defined.

Lemma close_loan_first_quote_suffices_witness :
  quoted_amounts (snd (scenario_close (fun x => 2000 * x) 0)) = [502].
Proof.
  apply (close_loan_first_quote_suffices ceil_to_token_precision
           (scenario_env (- 1000000) (fun x => 2000 * x))
           "zap"%string "account"%string "market"%string false
           default_max_slippage 0%nat
           (fst (scenario_close (fun x => 2000 * x) 0))
           (snd (scenario_close (fun x => 2000 * x) 0))
           "collateral"%string 0 (- 1000000) 1000
           (skipn 2 (snd (scenario_close (fun x => 2000 * x) 0)))
           502 1004000 "route"%string).
  - vm_compute. reflexivity.
  - vm_compute. reflexivity.
  - vm_compute. reflexivity.
  - vm_compute. discriminate.
Defined.

Lemma decrease_loan_quote_and_health_witness :
  exists coll pid,
    snd (get_decrease_loan_routing_data (scenario_env 0 flat_quote)
           "zap"%string "account"%string "market"%string 10
           default_max_slippage [])
    = [E_get_collateral "market"%string (inr coll);
       E_get_quote 1 "zap"%string coll MONEY 10 default_max_slippage
         (inr (19900, pid));
       E_pending_account_state_calculator "market"%string "account"%string
         (- 10) (- 19900) 0 (inr 19890);
       E_get_route_calldata "zap"%string pid (inr "0xc0de"%string)].
Proof.
  apply (decrease_loan_quote_and_health (scenario_env 0 flat_quote)
           "zap"%string "account"%string "market"%string 10
           default_max_slippage "0xc0de"%string 19900 19890).
  vm_compute. reflexivity.
Defined.

Lemma coll_converted_close_and_create_witness :
  exists contracts coll amm debt_amm coll_amm received pid,
    removelast contracts = [coll; amm] /\
    snd (get_coll_converted_close_and_create_routing_data
           (scenario_env 1000 (fun _ => 7)) "zap"%string "account"%string
           "market"%string 20 default_max_slippage [])
    = [E_market_contracts "market"%string (inr contracts);
       E_get_sum_xy amm "account"%string (inr (debt_amm, coll_amm));
       E_get_quote 1 "zap"%string MONEY coll debt_amm default_max_slippage
         (inr (received, pid));
       E_get_route_calldata "zap"%string pid (inr "0xc0de"%string)] /\
    0 < debt_amm /\
    327 = 20 + coll_amm + received.
Proof.
  apply (proj1 (coll_converted_close_and_create
                  (scenario_env 1000 (fun _ => 7)) "zap"%string
                  "account"%string "market"%string 20 default_max_slippage
                  _ _ eq_refl) "0xc0de"%string 327).
  vm_compute. reflexivity.
Defined.


End ZapFacts.

(** ** Further properties of the calculators *)
Module ZapExtra.
Import PyNum Zap PyNumFacts ZapFacts.

(** *** The create-loan calculator *)

(** A run of the create-loan calculator that returns has asked exactly one
    quote, of the whole debt from the stable token into the collateral of
    the market, returns as total collateral the caller's collateral plus the
    answer of the quote, and has asked the health of that total and of the
    debt for the zero address, with the bands given. *)
Theorem create_loan_returns
    env zap market coll_amount debt_amount num_bands slip data total health
    tr :
  get_create_loan_routing_data env zap market coll_amount debt_amount
    num_bands slip [] = (Ret (data, total, health), tr) ->
  exists coll coll_in pid,
    tr = [E_get_collateral market (inr coll);
          E_get_quote (chain_id env) zap MONEY coll debt_amount slip
            (inr (coll_in, pid));
          E_pending_account_state_calculator market ZERO_ADDRESS
            (coll_amount + coll_in) debt_amount num_bands (inr health);
          E_get_route_calldata zap pid (inr data)] /\
    total = coll_amount + coll_in.
Proof.
  unfold get_create_loan_routing_data. unfold_run. intros H.
  repeat step_list H; try discriminate H; inversion H; subst; clear H.
  do 3 eexists. split; reflexivity.
Qed.

Lemma create_loan_returns_witness :
  exists coll coll_in pid,
    snd (get_create_loan_routing_data (scenario_env 0 (fun _ => 450))
           "zap"%string "market"%string 100 1000 4 default_max_slippage [])
    = [E_get_collateral "market"%string (inr coll);
       E_get_quote 1 "zap"%string MONEY coll 1000 default_max_slippage
         (inr (coll_in, pid));
       E_pending_account_state_calculator "market"%string ZERO_ADDRESS
         (100 + coll_in) 1000 4 (inr (- 450));
       E_get_route_calldata "zap"%string pid (inr "0xc0de"%string)] /\
    550 = 100 + coll_in.
Proof.
  apply (create_loan_returns (scenario_env 0 (fun _ => 450))
           "zap"%string "market"%string 100 1000 4 default_max_slippage
           "0xc0de"%string 550 (- 450)).
  vm_compute. reflexivity.
Defined.

(** *** Failed quotes *)

(** The four calculators without a loop ask at most one quote in any run,
    and never ask again after a failure: when the quote request raises, the
    run raises the same exception and the failed request is its last call,
    so no health and no calldata is asked. *)
Theorem single_quote_never_retried env zap account market :
  (forall coll_amount debt_amount num_bands slip o tr,
     get_create_loan_routing_data env zap market coll_amount debt_amount
       num_bands slip [] = (o, tr) ->
     (List.length (quoted_amounts tr) <= 1)%nat /\
     forall e, quote_failure tr = Some e ->
       o = Raise e /\ calldata_requests tr = [] /\
       exists coll, tr = [E_get_collateral market (inr coll);
                          E_get_quote (chain_id env) zap MONEY coll
                            debt_amount slip (inl e)]) /\
  (forall coll_amount debt_amount slip o tr,
     get_increase_loan_routing_data env zap account market coll_amount
       debt_amount slip [] = (o, tr) ->
     (List.length (quoted_amounts tr) <= 1)%nat /\
     forall e, quote_failure tr = Some e ->
       o = Raise e /\ calldata_requests tr = [] /\
       exists coll, tr = [E_get_collateral market (inr coll);
                          E_get_quote (chain_id env) zap MONEY coll
                            debt_amount slip (inl e)]) /\
  (forall coll_amount slip o tr,
     get_decrease_loan_routing_data env zap account market coll_amount slip
       [] = (o, tr) ->
     (List.length (quoted_amounts tr) <= 1)%nat /\
     forall e, quote_failure tr = Some e ->
       o = Raise e /\ calldata_requests tr = [] /\
       exists coll, tr = [E_get_collateral market (inr coll);
                          E_get_quote (chain_id env) zap coll MONEY
                            coll_amount slip (inl e)]) /\
  (forall coll_amount slip o tr,
     get_coll_converted_close_and_create_routing_data env zap account market
       coll_amount slip [] = (o, tr) ->
     (List.length (quoted_amounts tr) <= 1)%nat /\
     forall e, quote_failure tr = Some e ->
       o = Raise e /\ calldata_requests tr = [] /\
       exists contracts coll amm debt_amm coll_amm,
         removelast contracts = [coll; amm] /\
         tr = [E_market_contracts market (inr contracts);
               E_get_sum_xy amm account (inr (debt_amm, coll_amm));
               E_get_quote (chain_id env) zap MONEY coll debt_amm slip
                 (inl e)]).
Proof.
  repeat split;
    try (revert H;
         unfold get_create_loan_routing_data, get_increase_loan_routing_data,
           get_decrease_loan_routing_data,
           get_coll_converted_close_and_create_routing_data;
         unfold_run; intros H;
         repeat step_list H; apply pair_equal_spec in H;
         destruct H as [<- <-]; simpl; lia);
    revert H H0;
    unfold get_create_loan_routing_data, get_increase_loan_routing_data,
      get_decrease_loan_routing_data,
      get_coll_converted_close_and_create_routing_data;
    unfold_run; intros H Hf;
    repeat step_list H; apply pair_equal_spec in H;
    destruct H as [<- <-]; simpl in Hf; try discriminate Hf;
    inversion Hf; subst; clear Hf;
    try reflexivity;
    repeat eexists; eassumption.
Qed.

(** *** The collateral-converted calculator *)

(** The collateral added by the caller plays no part in the calls: two
    runs that differ only in [coll_amount] make the same calls and get the
    same routing data, and the totals returned differ by the difference of
    the two amounts. *)
Theorem coll_converted_amount_only_in_total
    env zap account market c1 c2 slip :
  let run c :=
    get_coll_converted_close_and_create_routing_data env zap account market
      c slip [] in
  snd (run c1) = snd (run c2) /\
  match fst (run c1), fst (run c2) with
  | Ret (d1, t1), Ret (d2, t2) => d1 = d2 /\ t2 - t1 = c2 - c1
  | Raise e1, Raise e2 => e1 = e2
  | _, _ => False
  end.
Proof.
  unfold get_coll_converted_close_and_create_routing_data. unfold_run.
  cbv zeta.
  repeat match goal with
         | |- context [match ?x with inl _ => _ | inr _ => _ end] =>
             destruct x as [?|?]
         | |- context [if ?b then _ else _] => destruct b
         | |- context [match ?p with (_, _) => _ end] => is_var p; destruct p
         | |- context [match ?l with nil => _ | cons _ _ => _ end] =>
             destruct l
         end; simpl; (split; [reflexivity|]); try reflexivity.
  split; [reflexivity|lia].
Qed.

(** The three market contracts are unpacked as the collateral, the AMM and
    one more that is dropped: a run raises [ValueError] right after the read
    unless exactly three contracts are returned, and otherwise reads the AMM
    sums of the account from the second one. *)
Theorem coll_converted_contracts_unpack
    env zap account market coll_amount slip o tr contracts rest :
  get_coll_converted_close_and_create_routing_data env zap account market
    coll_amount slip [] = (o, tr) ->
  tr = E_market_contracts market (inr contracts) :: rest ->
  (List.length contracts <> 3%nat -> o = Raise ValueError /\ rest = []) /\
  (List.length contracts = 3%nat ->
   exists r rest',
     rest = E_get_sum_xy (nth 1 contracts ""%string) account r :: rest').
Proof.
  unfold get_coll_converted_close_and_create_routing_data. unfold_run.
  intros H Htr. subst tr.
  destruct (controller_market_contracts env [] market) as [?|l] eqn:Hc.
  { apply pair_equal_spec in H. destruct H as [_ H]. discriminate H. }
  destruct l as [|c1 [|c2 [|c3 [|c4 l]]]]; simpl removelast in H; cbv iota in H;
    try (apply pair_equal_spec in H; destruct H as [<- H];
         simpl in H; inversion H; subst;
         split; [intros _; split; reflexivity|simpl; intros; discriminate]).
  (* three contracts *)
  change (removelast [c1; c2; c3]) with [c1; c2] in H. cbv beta iota in H.
  repeat step_list H; apply pair_equal_spec in H; destruct H as [<- H];
    simpl in H; inversion H; subst;
    (split; [simpl; intros; congruence|intros _; simpl; eauto]).
Qed.

Lemma coll_converted_contracts_unpack_witness :
  exists r rest',
    skipn 1 (snd (get_coll_converted_close_and_create_routing_data
                    (scenario_env 1000 (fun _ => 7)) "zap"%string
                    "account"%string "market"%string 20 default_max_slippage
                    []))
    = E_get_sum_xy "amm"%string "account"%string r :: rest'.
Proof.
  refine (proj2 (coll_converted_contracts_unpack
                   (scenario_env 1000 (fun _ => 7)) "zap"%string
                   "account"%string "market"%string 20 default_max_slippage
                   _ _ ["collateral"; "amm"; "oracle"]%string _ eq_refl _) _).
  - vm_compute. reflexivity.
  - reflexivity.
Defined.

(** *** Divisions by zero in the close-loan calculator *)

(** An oracle price of zero makes the seed estimate divide by zero: the run
    raises [ZeroDivisionError] right after reading the price, before the
    decimals are read and before any quote is asked. *)
Theorem close_loan_zero_price
    to_int env zap account market use slip fuel o tr coll bal damm camm rest :
  get_close_loan_routing_data to_int env zap account market use slip fuel []
    = (o, tr) ->
  tr = close_reads account market use coll bal damm camm
       ++ E_get_oracle_price coll (inr 0) :: rest ->
  o = Raise ZeroDivisionError /\ rest = [] /\ quoted_amounts tr = [].
Proof.
  unfold get_close_loan_routing_data, close_reads.
  unfold_run. intros H Htr. subst tr.
  repeat step H; finish H;
    try match goal with
        | Hd : py_truediv _ 0 = _ |- _ =>
            unfold py_truediv in Hd; simpl in Hd; inversion Hd; subst
        end;
    repeat split; reflexivity.
Qed.

Lemma close_loan_zero_price_witness :
  fst (get_close_loan_routing_data ceil_to_token_precision
         {| chain_id := 1;
            controller_get_collateral := fun _ _ => inr "collateral"%string;
            controller_market_contracts := fun _ _ => inr [];
            controller_get_close_loan_amounts := fun _ _ _ => inr (- 5, 1);
            controller_get_oracle_price := fun _ _ => inr 0;
            token_balanceOf := fun _ _ _ => inr 0;
            token_decimals := fun _ _ => inr 18;
            market_user_state := fun _ _ _ => inr [];
            market_pending_account_state_calculator :=
              fun _ _ _ _ _ _ => inr 0;
            amm_get_sum_xy := fun _ _ _ => inr (0, 0);
            odos_get_quote := fun _ _ _ _ _ _ _ => inr (1, "route"%string);
            odos_get_route_calldata := fun _ _ _ => inr "0xc0de"%string |}
         "zap"%string "account"%string "market"%string false
         default_max_slippage 3 [])
  = Raise ZeroDivisionError.
Proof.
  refine (proj1 (close_loan_zero_price ceil_to_token_precision _
                   "zap"%string "account"%string "market"%string false
                   default_max_slippage 3%nat _ _ "collateral"%string 0 (- 5)
                   1 [] (surjective_pairing _) _)).
  vm_compute. reflexivity.
Defined.

Lemma close_loop_zero_quote
    env zap collateral slip ds fuel amount_in pid tr :
  0 < ds ->
  close_loop env zap collateral slip ds (S fuel) amount_in 0 pid tr
  = (Raise ZeroDivisionError, tr).
Proof.
  intros Hds. rewrite close_loop_unfold.
  rewrite (proj2 (Z.ltb_lt 0 ds) Hds). reflexivity.
Qed.

(** A first quote that answers zero makes the rescale divide by zero: the
    run raises [ZeroDivisionError], having asked that one quote only and no
    calldata. *)
Theorem close_loan_zero_quote
    to_int env zap account market use slip fuel o tr coll bal damm camm rest
    seed pid :
  get_close_loan_routing_data to_int env zap account market use slip
    (S fuel) [] = (o, tr) ->
  tr = close_reads account market use coll bal damm camm ++ rest ->
  first_quote rest = Some (seed, inr (0, pid)) ->
  o = Raise ZeroDivisionError /\
  quoted_amounts tr = [seed] /\ calldata_requests tr = [].
Proof.
  unfold get_close_loan_routing_data, close_reads.
  unfold_run. intros H Htr Hfq. subst tr.
  repeat step H; finish H; simpl in Hfq; try discriminate Hfq;
    inversion Hfq; subst; clear Hfq;
    rewrite close_loop_zero_quote in Hloop
      by (apply Z.ltb_lt; assumption);
    apply pair_equal_spec in Hloop; destruct Hloop as [Hret Hmid];
    try discriminate Hret;
    apply app_eq_self in Hmid; subst;
    inversion Hret; subst; repeat split; reflexivity.
Qed.

Lemma close_loan_zero_quote_witness :
  fst (scenario_close (fun _ => 0) 1) = Raise ZeroDivisionError.
Proof.
  refine (proj1 (close_loan_zero_quote ceil_to_token_precision
                   (scenario_env (- 1000000) (fun _ => 0))
                   "zap"%string "account"%string "market"%string false
                   default_max_slippage 0%nat _
                   (snd (scenario_close (fun _ => 0) 1))
                   "collateral"%string 0 (- 1000000) 1000
                   (skipn 2 (snd (scenario_close (fun _ => 0) 1)))
                   502 "route"%string _ _ _)).
  - vm_compute. reflexivity.
  - vm_compute. reflexivity.
  - vm_compute. reflexivity.
Defined.

(** *** The rescale step, numerically *)

(** For amounts whose exact quotient stays below [2 ^ 1023], as all amounts
    of 256 bits do, the rescale step raises nothing: it returns a
    non-negative integer. *)
Theorem rescale_in_range_returns a ds out :
  0 <= a -> 0 < out -> out < ds -> a * ds < 2 ^ 1023 * out ->
  exists v, rescale a ds out = inr v /\ 0 <= v.
Proof.
  intros Ha Hout Hds Hrange.
  destruct (Z.eq_dec a 0) as [->|Ha0].
  { exists 0. rewrite rescale_zero by lia. split; [reflexivity|lia]. }
  assert (Ha' : 0 < a) by lia.
  rewrite (rescale_spec a ds out Ha' Hout Hds).
  assert (Hn : out <= a * ds) by nia.
  destruct (round_quot_normal (a * ds) out Hout Hn) as (_ & He & L & _ & Hm).
  set (n := a * ds) in *.
  set (e := ilog2_quot n out - 52) in *.
  set (m := rne (num e n) (den e out)) in *.
  assert (He970 : e <= 970).
  { destruct (Z.le_gt_cases e 970) as [|Hbig]; [assumption|exfalso].
    revert L. unfold den, num.
    rewrite (Z.max_r 0 e), (Z.max_l 0 (- e)) by lia. rewrite Z.pow_0_r.
    assert (P : 2 ^ 971 <= 2 ^ e) by (apply Z.pow_le_mono_r; lia).
    assert (E : 2 ^ 1023 = 2 ^ 52 * 2 ^ 971) by reflexivity.
    assert (K0 : 0 < 2 ^ 52) by reflexivity.
    revert P E K0 Hrange. generalize (2 ^ e) (2 ^ 1023) (2 ^ 971) (2 ^ 52).
    intros Pe P1023 P971 K P E K0 Hrange L. subst P1023.
    assert (0 < K * out) by nia.
    assert (K * out * P971 <= K * out * Pe) by (apply Z.mul_le_mono_nonneg_l; lia).
    lia. }
  assert (Hsnd : snd (normalize (m, e)) <= e + 1).
  { unfold normalize. destruct (m =? 2 ^ 53); cbn [snd]; lia. }
  rewrite (proj2 (Z.ltb_ge 971 (snd (normalize (m, e))))) by lia.
  eexists. split; [reflexivity|].
  unfold trunc_dyadic. destruct (Z.leb_spec 0 e).
  - apply Z.mul_nonneg_nonneg; [lia|]. apply Z.pow_nonneg. lia.
  - apply Z.div_pos; [lia|]. apply Z.pow_pos_nonneg; lia.
Qed.

Lemma rescale_in_range_returns_witness :
  exists v, rescale (2 ^ 255) (2 ^ 256 - 1) (2 ^ 200) = inr v /\ 0 <= v.
Proof.
  apply rescale_in_range_returns; vm_compute; first [reflexivity|discriminate].
Defined.

Lemma rne_half p q :
  0 < q -> 2 * (rne p q * q) <= 2 * p + q /\ 2 * p <= 2 * (rne p q * q) + q.
Proof.
  intros Hq. unfold rne.
  pose proof (Z.div_mod p q ltac:(lia)) as Hdm.
  pose proof (Z.mod_pos_bound p q Hq) as Hr.
  set (k := p / q) in *. set (r := p mod q) in *.
  destruct (Z.ltb_spec (2 * r) q); [nia|].
  destruct (Z.ltb_spec q (2 * r)); [nia|].
  destruct (Z.even k); nia.
Qed.

(** The rescaled amount is the exact quotient
    [amount_in * debt_shortfall / amount_out] up to the rounding of a float
    and the truncation: it is at most the quotient times [1 + 2 ^ -53], and
    it is more than the quotient times [1 - 2 ^ -53], minus one. *)
Theorem rescale_accuracy a ds out v :
  0 <= a -> 0 < out -> out < ds -> rescale a ds out = inr v ->
  2 ^ 53 * (v * out) <= (2 ^ 53 + 1) * (a * ds) /\
  (2 ^ 53 - 1) * (a * ds) < 2 ^ 53 * ((v + 1) * out).
Proof.
  intros Ha Hout Hds Hres.
  destruct (Z.eq_dec a 0) as [->|Ha0].
  { rewrite rescale_zero in Hres by lia. injection Hres as <-. lia. }
  assert (Ha' : 0 < a) by lia.
  rewrite (rescale_spec a ds out Ha' Hout Hds) in Hres.
  assert (Hn : out <= a * ds) by nia.
  destruct (round_quot_normal (a * ds) out Hout Hn) as (_ & He & L & _ & Hm).
  set (n := a * ds) in *.
  set (e := ilog2_quot n out - 52) in *.
  assert (Dp : 0 < den e out).
  { unfold den. apply Z.mul_pos_pos; [lia|]. apply Z.pow_pos_nonneg; lia. }
  destruct (rne_half (num e n) (den e out) Dp) as (Hup & Hlo).
  set (m := rne (num e n) (den e out)) in *.
  destruct (971 <? snd (normalize (m, e))); [discriminate|].
  injection Hres as <-.
  change (2 ^ 53) with (2 * 2 ^ 52).
  assert (K0 : 0 < 2 ^ 52) by reflexivity.
  revert L Hup Hlo Hm. generalize (2 ^ 52) K0. intros K HK.
  unfold trunc_dyadic, den, num.
  destruct (Z.leb_spec 0 e) as [He0|He0].
  - rewrite (Z.max_r 0 e), (Z.max_l 0 (- e)) by lia. rewrite Z.pow_0_r.
    assert (P : 0 < 2 ^ e) by (apply Z.pow_pos_nonneg; lia).
    revert P. generalize (2 ^ e). intros P HP L Hup Hlo Hm. nia.
  - rewrite (Z.max_l 0 e), (Z.max_r 0 (- e)) by lia. rewrite Z.pow_0_r.
    assert (P : 0 < 2 ^ (- e)) by (apply Z.pow_pos_nonneg; lia).
    revert P. generalize (2 ^ (- e)). intros P HP L Hup Hlo Hm.
    rewrite !Z.mul_1_r in *.
    pose proof (Z.div_mod m P ltac:(lia)) as Hdm.
    pose proof (Z.mod_pos_bound m P HP) as Hr.
    set (w := m / P) in *. set (r := m mod P) in *.
    split.
    + apply (Z.mul_le_mono_pos_l _ _ P HP). nia.
    + apply (Z.mul_lt_mono_pos_l P _ _ HP). nia.
Qed.

Lemma rescale_accuracy_witness :
  2 ^ 53 * (2 ^ 54 * (10 ^ 18 - 1)) <= (2 ^ 53 + 1) * ((2 ^ 54 + 1) * 10 ^ 18).
Proof.
  refine (proj1 (rescale_accuracy (2 ^ 54 + 1) (10 ^ 18) (10 ^ 18 - 1)
                   (2 ^ 54) _ _ _ _)).
  - vm_compute. discriminate.
  - vm_compute. reflexivity.
  - vm_compute. reflexivity.
  - vm_compute. reflexivity.
Defined.

(** *** Progress and termination of the loop *)

(** With an exact product below [2 ^ 53], the rescale step returns the
    amount it was given exactly when
    [amount_in * (debt_shortfall - amount_out) < amount_out]: the missing
    output is then worth less than one unit of input. *)
Theorem rescale_no_progress_iff a ds out :
  0 <= a -> 0 < out -> out < ds -> a * ds < 2 ^ 53 ->
  (rescale a ds out = inr a <-> a * (ds - out) < out).
Proof.
  intros Ha Hout Hds Hsmall.
  rewrite (rescale_exact_floor a ds out Ha Hout Hds Hsmall).
  pose proof (Z.div_mod (a * ds) out ltac:(lia)) as Hdm.
  pose proof (Z.mod_pos_bound (a * ds) out Hout) as Hr.
  set (q := a * ds / out) in *. set (r := (a * ds) mod out) in *.
  split.
  - intros H. injection H as H. nia.
  - intros H. f_equal. nia.
Qed.

Lemma rescale_no_progress_iff_witness : 502 * (1000000 - 998980) < 998980.
Proof.
  apply (rescale_no_progress_iff 502 1000000 998980); try lia.
  vm_compute. reflexivity.
Defined.

(** When the rescale step returns the amount it was given and the provider
    answers that amount as before, the loop asks the same quote for ever:
    no fuel lets it leave. *)
Theorem close_loop_no_progress_diverges
    env zap collateral slip ds a out pid :
  (forall t, odos_get_quote env t (chain_id env) zap collateral MONEY a slip
             = inr (out, pid)) ->
  out < ds ->
  rescale a ds out = inr a ->
  forall fuel tr,
    fst (close_loop env zap collateral slip ds fuel a out pid tr) = OutOfFuel.
Proof.
  intros Hq Hlt Hre fuel.
  induction fuel as [|fuel IH]; intros tr; rewrite close_loop_unfold;
    rewrite (proj2 (Z.ltb_lt out ds) Hlt).
  - reflexivity.
  - unfold bind at 1. unfold lift. rewrite Hre.
    cbv beta iota delta [of_result bind call]. rewrite Hq. apply IH.
Qed.

Lemma close_loop_no_progress_diverges_witness :
  fst (close_loop (scenario_env (- 1000000) (fun x => 2 * x)) "zap"%string
         "collateral"%string default_max_slippage 3 7 1 2 "route"%string [])
  = OutOfFuel.
Proof.
  apply close_loop_no_progress_diverges.
  - intros t. reflexivity.
  - lia.
  - vm_compute. reflexivity.
Defined.

(** For a provider that answers every request by a non-decreasing function
    [f] of the amount, reaching the shortfall at some amount [X]: if every
    rescale from an amount that does not suffice returns a larger amount,
    the loop started at [a] returns with [X - a] units of fuel, with an
    output that covers the shortfall. *)
Theorem close_loop_terminates_with_progress
    env zap collateral slip ds (f : Z -> Z) (route : Z -> string) a0 X :
  (forall t x, odos_get_quote env t (chain_id env) zap collateral MONEY x slip
               = inr (f x, route x)) ->
  (forall x y, x <= y -> f x <= f y) ->
  ds <= f X ->
  (forall x, a0 <= x -> f x < ds ->
     exists x', rescale x ds (f x) = inr x' /\ x < x') ->
  forall fuel a tr,
    a0 <= a ->
    (Z.to_nat (X - a) <= fuel)%nat ->
    exists a' tr',
      close_loop env zap collateral slip ds fuel a (f a) (route a) tr
      = (Ret (a', f a', route a'), tr') /\
      ds <= f a' /\ a <= a'.
Proof.
  intros Hq Hmono Hsuff Hprog fuel.
  induction fuel as [|fuel IH]; intros a tr Ha Hfuel;
    rewrite close_loop_unfold;
    destruct (Z.ltb_spec (f a) ds) as [Hlt|Hge];
    try (exists a, tr; split; [reflexivity|lia]).
  - exfalso.
    assert (X <= a) by lia.
    pose proof (Hmono X a ltac:(lia)). lia.
  - assert (a < X).
    { destruct (Z.lt_ge_cases a X) as [|Hx]; [assumption|].
      pose proof (Hmono X a ltac:(lia)). lia. }
    destruct (Hprog a Ha Hlt) as (x' & Hre & Hx').
    unfold bind at 1. unfold lift. rewrite Hre.
    cbv beta iota delta [of_result bind call]. rewrite Hq.
    destruct (IH x' (tr ++ [E_get_quote (chain_id env) zap collateral MONEY x'
                             slip (inr (f x', route x'))]))
      as (a' & tr' & Hrun & Hcov & Hle); [lia|lia|].
    exists a', tr'. split; [exact Hrun|]. split; lia.
Qed.

Lemma close_loop_terminates_with_progress_witness :
  exists a' tr',
    close_loop (scenario_env (- 1000000) (fun x => x)) "zap"%string
      "collateral"%string default_max_slippage 10 7 3 3 "route"%string []
    = (Ret (a', a', "route"%string), tr') /\
    10 <= a' /\ 3 <= a'.
Proof.
  apply (close_loop_terminates_with_progress
           (scenario_env (- 1000000) (fun x => x)) "zap"%string
           "collateral"%string default_max_slippage 10 (fun x => x)
           (fun _ => "route"%string) 3 10).
  - intros t x. reflexivity.
  - intros x y H. exact H.
  - lia.
  - intros x Hx Hlt. exists 10. split; [|lia].
    assert (Hc : x = 3 \/ x = 4 \/ x = 5 \/ x = 6 \/ x = 7 \/ x = 8 \/ x = 9)
      by lia.
    repeat (destruct Hc as [Hc|Hc]; [subst x; vm_compute; reflexivity|]).
    subst x; vm_compute; reflexivity.
  - lia.
  - simpl. lia.
Defined.

(** *** What the loop adds to a run *)

Lemma quote_failure_app l1 l2 :
  quote_failure (l1 ++ l2) =
  match quote_failure l1 with
  | Some e => Some e
  | None => quote_failure l2
  end.
Proof.
  induction l1 as [|ev l1 IH]; [reflexivity|].
  destruct ev; simpl; try exact IH.
  destruct r; [reflexivity|exact IH].
Qed.

Lemma quote_answers_app l1 l2 :
  quote_answers (l1 ++ l2) = quote_answers l1 ++ quote_answers l2.
Proof.
  induction l1 as [|ev l1 IH]; [reflexivity|].
  destruct ev; simpl; try exact IH.
  destruct r as [?|[? ?]]; simpl; [exact IH|f_equal; exact IH].
Qed.

Lemma calldata_requests_app l1 l2 :
  calldata_requests (l1 ++ l2) = calldata_requests l1 ++ calldata_requests l2.
Proof.
  induction l1 as [|ev l1 IH]; [reflexivity|].
  destruct ev; simpl; try exact IH. f_equal; exact IH.
Qed.

Lemma quotes_no_calldata chain sender token_in token_out slip qs :
  Forall (is_quote_of chain sender token_in token_out slip) qs ->
  calldata_requests qs = [].
Proof.
  induction 1 as [|ev qs (a & r & ->) _ IH]; [reflexivity|exact IH].
Qed.

(** The calls of the loop are quote requests that sell the collateral for
    the stable token under the slippage given. A failed one ends the loop
    with its exception. When the loop returns, no request has failed and
    every answer before the last one, the answer of the first quote
    included, was below the shortfall. *)
Lemma close_loop_shape env zap coll slip ds fuel :
  forall a out pid tr o qs,
    close_loop env zap coll slip ds fuel a out pid tr = (o, tr ++ qs) ->
    Forall (is_quote_of (chain_id env) zap coll MONEY slip) qs /\
    (forall e, quote_failure qs = Some e ->
       o = Raise e /\
       exists pre ain,
         qs = pre ++ [E_get_quote (chain_id env) zap coll MONEY ain slip
                        (inl e)] /\
         quote_failure pre = None) /\
    (forall a' out' pid', o = Ret (a', out', pid') ->
       quote_failure qs = None /\
       exists early,
         out :: quote_answers qs = early ++ [out'] /\
         Forall (fun x => x < ds) early).
Proof.
  induction fuel as [|fuel IH]; intros a out pid tr o qs H;
    rewrite close_loop_unfold in H;
    destruct (Z.ltb_spec out ds) as [Hlt|Hge].
  - apply pair_equal_spec in H. destruct H as [<- Ht].
    apply app_eq_self in Ht. subst qs.
    repeat split; try constructor; intros; discriminate.
  - apply pair_equal_spec in H. destruct H as [<- Ht].
    apply app_eq_self in Ht. subst qs.
    split; [constructor|]. split; [intros; discriminate|].
    intros a' out' pid' Heq. inversion Heq; subst.
    split; [reflexivity|]. exists []. split; [reflexivity|constructor].
  - revert H. unfold_run.
    destruct (rescale a ds out) as [e|a1].
    { intros H. apply pair_equal_spec in H. destruct H as [<- Ht].
      apply app_eq_self in Ht. subst qs.
      repeat split; try constructor; intros; discriminate. }
    destruct (odos_get_quote env tr (chain_id env) zap coll MONEY a1 slip)
      as [e|[o1 p1]] eqn:Hq.
    + intros H. apply pair_equal_spec in H. destruct H as [<- Ht].
      apply app_inv_head in Ht. subst qs.
      split; [constructor; [exists a1, (inl e); reflexivity|constructor]|].
      split.
      * intros e0 He0. simpl in He0. inversion He0; subst.
        split; [reflexivity|]. exists [], a1. split; reflexivity.
      * intros; discriminate.
    + intros H.
      destruct (close_loop_extends _ _ _ _ _ _ _ _ _ _ _ _ H) as (mid & Hmid).
      rewrite <- app_assoc in Hmid. apply app_inv_head in Hmid. subst qs.
      change (tr ++ [E_get_quote (chain_id env) zap coll MONEY a1 slip
                       (inr (o1, p1))] ++ mid)
        with (tr ++ E_get_quote (chain_id env) zap coll MONEY a1 slip
                      (inr (o1, p1)) :: mid) in H.
      replace (tr ++ E_get_quote (chain_id env) zap coll MONEY a1 slip
                       (inr (o1, p1)) :: mid)
        with ((tr ++ [E_get_quote (chain_id env) zap coll MONEY a1 slip
                        (inr (o1, p1))]) ++ mid) in H
        by (rewrite <- app_assoc; reflexivity).
      apply IH in H. destruct H as (P1 & P2 & P3).
      split; [constructor; [exists a1, (inr (o1, p1)); reflexivity|exact P1]|].
      split.
      * intros e He. simpl in He. destruct (P2 e He) as (-> & pre & ain & -> & Hpre).
        split; [reflexivity|].
        exists (E_get_quote (chain_id env) zap coll MONEY a1 slip
                  (inr (o1, p1)) :: pre), ain.
        split; [reflexivity|exact Hpre].
      * intros a' out' pid' Heq.
        destruct (P3 a' out' pid' Heq) as (Hnone & early & Hearly & Hall).
        split; [exact Hnone|].
        exists (out :: early). simpl. rewrite Hearly.
        split; [reflexivity|constructor; assumption].
  - apply pair_equal_spec in H. destruct H as [<- Ht].
    apply app_eq_self in Ht. subst qs.
    split; [constructor|]. split; [intros; discriminate|].
    intros a' out' pid' Heq. inversion Heq; subst.
    split; [reflexivity|]. exists []. split; [reflexivity|constructor].
Qed.

(** Once the price and the decimals are read, the close-loan calculator
    only asks quotes that sell the collateral for the stable token under
    the slippage given, and then at most the calldata of a route: the
    balance, the debt and the price are read once and are not read again
    while the amount is searched. *)
Theorem close_loan_never_rereads
    to_int env zap account market use slip fuel o tr coll bal damm camm
    price dec rest :
  get_close_loan_routing_data to_int env zap account market use slip fuel []
    = (o, tr) ->
  tr = close_reads account market use coll bal damm camm
       ++ E_get_oracle_price coll (inr price)
       :: E_decimals coll (inr dec) :: rest ->
  exists quotes tail,
    rest = quotes ++ tail /\
    Forall (is_quote_of (chain_id env) zap coll MONEY slip) quotes /\
    (tail = [] \/ exists pid r, tail = [E_get_route_calldata zap pid r]).
Proof.
  unfold get_close_loan_routing_data, close_reads.
  unfold_run. intros H Htr. subst tr.
  repeat step H; finish H;
    try (apply close_loop_shape in Hloop; destruct Hloop as (P1 & _ & _)).
  all: try (exists [], []; split; [reflexivity|]; split; [constructor|];
            left; reflexivity).
  all: try (eexists (_ :: _), []; split; [rewrite app_nil_r; reflexivity|];
            split; [constructor; [eexists _, _; reflexivity|
                                  first [exact P1|constructor]]|];
            left; reflexivity).
  all: try (eexists (_ :: _), [_]; split; [reflexivity|];
            split; [constructor; [eexists _, _; reflexivity|exact P1]|];
            right; eexists _, _; reflexivity).
Qed.

Lemma close_loan_never_rereads_witness :
  exists quotes tail,
    skipn 4 (snd (scenario_close stepped_quote 5)) = quotes ++ tail /\
    Forall (is_quote_of 1 "zap"%string "collateral"%string MONEY
              default_max_slippage) quotes /\
    (tail = [] \/
     exists pid r, tail = [E_get_route_calldata "zap"%string pid r]).
Proof.
  apply (close_loan_never_rereads ceil_to_token_precision
           (scenario_env (- 1000000) stepped_quote)
           "zap"%string "account"%string "market"%string false
           default_max_slippage 5%nat
           (fst (scenario_close stepped_quote 5))
           (snd (scenario_close stepped_quote 5))
           "collateral"%string 0 (- 1000000) 1000 2000 18).
  - apply surjective_pairing.
  - vm_compute. reflexivity.
Defined.

(** A run of the close-loan calculator that returns stopped at the first
    quote that covers the shortfall: the returned [amount_out] is the last
    answer, and every answer before it was below the shortfall. *)
Theorem close_loan_stops_at_first_sufficient_quote
    to_int env zap account market use slip fuel data ain aout tr coll bal
    damm camm rest :
  get_close_loan_routing_data to_int env zap account market use slip fuel []
    = (Ret (data, ain, aout), tr) ->
  tr = close_reads account market use coll bal damm camm ++ rest ->
  exists early,
    quote_answers tr = early ++ [aout] /\
    Forall (fun x => x < shortfall use bal damm) early.
Proof.
  unfold get_close_loan_routing_data, close_reads, shortfall.
  unfold_run. intros H Htr. subst tr.
  repeat step H; finish H; try discriminate;
    apply close_loop_shape in Hloop; destruct Hloop as (_ & _ & P3);
    inversion Ho; subst;
    destruct (P3 _ _ _ eq_refl) as (_ & early & Hearly & Hall);
    exists early; simpl; rewrite quote_answers_app; simpl;
    rewrite app_nil_r; split; assumption.
Qed.

Lemma close_loan_stops_at_first_sufficient_quote_witness :
  exists early,
    quote_answers (snd (scenario_close stepped_quote 5))
    = early ++ [1052000] /\
    Forall (fun x => x < 1000000) early.
Proof.
  apply (close_loan_stops_at_first_sufficient_quote ceil_to_token_precision
           (scenario_env (- 1000000) stepped_quote)
           "zap"%string "account"%string "market"%string false
           default_max_slippage 5%nat "0xc0de"%string 526 1052000
           (snd (scenario_close stepped_quote 5))
           "collateral"%string 0 (- 1000000) 1000
           (skipn 2 (snd (scenario_close stepped_quote 5)))).
  - vm_compute. reflexivity.
  - vm_compute. reflexivity.
Defined.

(** A quote request that fails is the last call of a run of the close-loan
    calculator: the run raises what the request raised, asks no other quote
    and no calldata. *)
Theorem close_loan_failed_quote_not_retried
    to_int env zap account market use slip fuel o tr e :
  get_close_loan_routing_data to_int env zap account market use slip fuel []
    = (o, tr) ->
  quote_failure tr = Some e ->
  o = Raise e /\ calldata_requests tr = [] /\
  exists pre coll ain,
    tr = pre ++ [E_get_quote (chain_id env) zap coll MONEY ain slip (inl e)] /\
    quote_failure pre = None.
Proof.
  unfold get_close_loan_routing_data.
  unfold_run. intros H Hf.
  repeat step H; apply pair_equal_spec in H; destruct H as [<- <-];
    simpl in Hf; try discriminate Hf;
    try (apply close_loop_shape in Hloop; destruct Hloop as (P1 & P2 & P3)).
  all: try (rewrite quote_failure_app in Hf;
            rewrite (proj1 (P3 _ _ _ eq_refl)) in Hf; discriminate Hf).
  all: try (inversion Hf; subst; clear Hf;
            split; [reflexivity|]; split; [reflexivity|];
            eexists _, _, _; split; reflexivity).
  all: destruct (P2 _ Hf) as (Ho & pre & ain & Hx & Hpre);
    try discriminate Ho;
    (split; [inversion Ho; reflexivity|]);
    (split; [simpl; exact (quotes_no_calldata _ _ _ _ _ _ P1)|]);
    subst x; eexists (_ ++ pre), _, ain;
    (split; [rewrite app_assoc; reflexivity|]);
    rewrite quote_failure_app; simpl; exact Hpre.
Qed.

Lemma close_loan_failed_quote_not_retried_witness :
  fst (get_close_loan_routing_data ceil_to_token_precision
         {| chain_id := 1;
            controller_get_collateral := fun _ _ => inr "collateral"%string;
            controller_market_contracts := fun _ _ => inr [];
            controller_get_close_loan_amounts :=
              fun _ _ _ => inr (- 1000000, 1000);
            controller_get_oracle_price := fun _ _ => inr 2000;
            token_balanceOf := fun _ _ _ => inr 0;
            token_decimals := fun _ _ => inr 18;
            market_user_state := fun _ _ _ => inr [];
            market_pending_account_state_calculator :=
              fun _ _ _ _ _ _ => inr 0;
            amm_get_sum_xy := fun _ _ _ => inr (0, 0);
            odos_get_quote :=
              fun _ _ _ _ _ amount _ =>
                if amount =? 502 then inr (953800, "route"%string)
                else inl (External "no route"%string);
            odos_get_route_calldata := fun _ _ _ => inr "0xc0de"%string |}
         "zap"%string "account"%string "market"%string false
         default_max_slippage 5 [])
  = Raise (External "no route"%string).
Proof.
  refine (proj1 (close_loan_failed_quote_not_retried ceil_to_token_precision
                   _ "zap"%string "account"%string "market"%string false
                   default_max_slippage 5%nat _ _ _
                   (surjective_pairing _) _)).
  vm_compute. reflexivity.
Defined.

Lemma single_quote_never_retried_witness :
  fst (get_decrease_loan_routing_data
         {| chain_id := 1;
            controller_get_collateral := fun _ _ => inr "collateral"%string;
            controller_market_contracts := fun _ _ => inr [];
            controller_get_close_loan_amounts := fun _ _ _ => inr (0, 0);
            controller_get_oracle_price := fun _ _ => inr 2000;
            token_balanceOf := fun _ _ _ => inr 0;
            token_decimals := fun _ _ => inr 18;
            market_user_state := fun _ _ _ => inr [];
            market_pending_account_state_calculator :=
              fun _ _ _ _ _ _ => inr 0;
            amm_get_sum_xy := fun _ _ _ => inr (0, 0);
            odos_get_quote :=
              fun _ _ _ _ _ _ _ => inl (External "no route"%string);
            odos_get_route_calldata := fun _ _ _ => inr "0xc0de"%string |}
         "zap"%string "account"%string "market"%string 7
         default_max_slippage [])
  = Raise (External "no route"%string).
Proof.
  refine (proj1 (proj2 (proj1 (proj2 (proj2
            (single_quote_never_retried _ "zap"%string "account"%string
               "market"%string)))
            7 default_max_slippage _ _ (surjective_pairing _)) _ _)).
  vm_compute. reflexivity.
Defined.

(** With [use_account_balance] false the close-loan calculator reads no
    balance at all, of no token and of no account, however the run ends. *)
Theorem close_loan_balance_not_read
    to_int env zap account market slip fuel o tr :
  get_close_loan_routing_data to_int env zap account market false slip fuel
    [] = (o, tr) ->
  forall token owner r, ~ In (E_balanceOf token owner r) tr.
Proof.
  unfold get_close_loan_routing_data.
  unfold_run. intros H token owner r Hin.
  repeat step H; apply pair_equal_spec in H; destruct H as [<- <-];
    try (apply close_loop_shape in Hloop; destruct Hloop as (P1 & _ & _);
         rewrite Forall_forall in P1);
    simpl in Hin;
    repeat (destruct Hin as [Hin|Hin]; [discriminate Hin|]);
    try contradiction;
    try (apply in_app_or in Hin; destruct Hin as [Hin|Hin];
         [|simpl in Hin; destruct Hin as [Hin|[]]; discriminate Hin]);
    destruct (P1 _ Hin) as (? & ? & Heq); discriminate Heq.
Qed.

Lemma close_loan_balance_not_read_witness :
  ~ In (E_balanceOf MONEY "account"%string (inr 0))
       (snd (scenario_close stepped_quote 5)).
Proof.
  apply (close_loan_balance_not_read ceil_to_token_precision
           (scenario_env (- 1000000) stepped_quote)
           "zap"%string "account"%string "market"%string
           default_max_slippage 5%nat
           (fst (scenario_close stepped_quote 5))).
  apply surjective_pairing.
Defined.

(** *** The loan state read by the increase-loan calculator *)

(** Find the place of an event in a trace that is known: the events before
    it are taken one by one. *)
Ltac hunt H pre :=
  destruct pre as [|? pre]; simpl in H;
  [ try discriminate H
  | try discriminate H;
    let Hhd := fresh "Hhd" in
    injection H as Hhd H; clear Hhd; hunt H pre ].

(** [market.user_state(account)[0]] needs a first element: when the market
    answers an empty state the run raises [IndexError] there. The empty
    answer is the last call of the run: the quote was asked before it, and
    neither the health nor the calldata is asked after it. *)
Theorem increase_loan_empty_user_state
    env zap account market coll_amount debt_amount slip o tr pre rest :
  get_increase_loan_routing_data env zap account market coll_amount
    debt_amount slip [] = (o, tr) ->
  tr = pre ++ E_user_state market account (inr []) :: rest ->
  o = Raise IndexError /\ rest = [] /\
  quoted_amounts tr = [debt_amount] /\ calldata_requests tr = [].
Proof.
  unfold get_increase_loan_routing_data. unfold_run. intros H Htr.
  repeat step_list H; apply pair_equal_spec in H; destruct H as [<- <-];
    simpl in Htr; hunt Htr pre;
    injection Htr as <-; repeat split; reflexivity.
Qed.

Lemma increase_loan_empty_user_state_witness :
  fst (get_increase_loan_routing_data
         {| chain_id := 1;
            controller_get_collateral := fun _ _ => inr "collateral"%string;
            controller_market_contracts := fun _ _ => inr [];
            controller_get_close_loan_amounts := fun _ _ _ => inr (0, 0);
            controller_get_oracle_price := fun _ _ => inr 2000;
            token_balanceOf := fun _ _ _ => inr 0;
            token_decimals := fun _ _ => inr 18;
            market_user_state := fun _ _ _ => inr [];
            market_pending_account_state_calculator :=
              fun _ _ _ _ _ _ => inr 0;
            amm_get_sum_xy := fun _ _ _ => inr (0, 0);
            odos_get_quote := fun _ _ _ _ _ _ _ => inr (450, "route"%string);
            odos_get_route_calldata := fun _ _ _ => inr "0xc0de"%string |}
         "zap"%string "account"%string "market"%string 0 1000
         default_max_slippage [])
  = Raise IndexError.
Proof.
  refine (proj1 (increase_loan_empty_user_state _ "zap"%string
                   "account"%string "market"%string 0 1000
                   default_max_slippage _ _
                   [E_get_collateral "market"%string
                      (inr "collateral"%string);
                    E_get_quote 1 "zap"%string MONEY "collateral"%string 1000
                      default_max_slippage (inr (450, "route"%string))]
                   [] (surjective_pairing _) _)).
  vm_compute. reflexivity.
Defined.

End ZapExtra.
